(** * route-checker: a shallow embedding of [route_check.py]

    The development follows the source file top to bottom: the data model
    ([View], the alias tables), the fetch path [_view_from_route_server]
    with its retry loop and path normalisation, the log-file cache
    ([_view_from_file], [_get_view]) and the report renderers
    ([verbose_view], [alert_view], [normal_view]).

    Modelling conventions.
    - A Python [dict] is insertion ordered; it is modelled by an association
      list with pairwise distinct keys ([Dict]), because the order of
      [items()] is observable in every report.
    - Python integers are [Z]; Python [str] is [string], read as ASCII text
      (the route server speaks ASCII).
    - Effects (the log file, the route server, the clock, [sleep]) are
      threaded through a state-and-exception monad [M]; every effect leaves
      an [Event] in a trace so that attempts, reads and appends can be
      counted.
    - netmiko, ntc_templates and the clock are collaborators: their answers
      are the fields of [Env].  The log file holds the lines this program
      wrote, one [View] each; opening and writing it does not fail.  The
      intent is the mapping that [yaml.safe_load] returned, from prefixes
      to lists of AS numbers. *)

From Stdlib Require Import ZArith List String Ascii Bool Lia.
From Stdlib Require Import Sorting.Sorted Sorting.Permutation.
From Stdlib Require Import Numbers.DecimalString.
Import ListNotations.

Local Open Scope Z_scope.
Local Open Scope list_scope.
Local Open Scope string_scope.

Set Implicit Arguments.

(** ** Keys with a boolean equality (what Python's hashing and [==] give
    for [str] and [int] keys) *)

Class Key (K : Type) := {
  key_eqb : K -> K -> bool;
  key_eqb_spec : forall a b, reflect (a = b) (key_eqb a b)
}.

#[export] Instance Key_string : Key string :=
  {| key_eqb := String.eqb; key_eqb_spec := String.eqb_spec |}.

#[export] Instance Key_Z : Key Z :=
  {| key_eqb := Z.eqb; key_eqb_spec := Z.eqb_spec |}.

(** ** Python's ordered [dict] *)

Definition Dict (K V : Type) : Type := list (K * V).

Module PyDict.
Section Ops.
Context {K V : Type} `{Key K}.

(** [d.get(k)]: [None] when the key is missing. *)
Fixpoint get (d : Dict K V) (k : K) : option V :=
  match d with
  | [] => None
  | (k', v) :: r => if key_eqb k k' then Some v else get r k
  end.

(** [k in d] *)
Definition mem (d : Dict K V) (k : K) : bool :=
  match get d k with Some _ => true | None => false end.

(** [d[k] = v]: an existing key keeps its position, a new key goes last. *)
Fixpoint set (d : Dict K V) (k : K) (v : V) : Dict K V :=
  match d with
  | [] => [(k, v)]
  | (k', v') :: r =>
      if key_eqb k k' then (k', v) :: r else (k', v') :: set r k v
  end.

Definition keys (d : Dict K V) : list K := map fst d.
Definition items (d : Dict K V) : list (K * V) := d.
End Ops.
End PyDict.

(** [list(dict.fromkeys(l))]: the elements of [l] in order of first
    occurrence. *)
Definition fromkeys {K} `{Key K} (l : list K) : list K :=
  PyDict.keys (fold_left (fun d x => PyDict.set d x tt) l []).

(** ** [list.sort()] *)

Fixpoint insert_sorted {A} (leb : A -> A -> bool) (x : A) (l : list A) : list A :=
  match l with
  | [] => [x]
  | y :: r => if leb x y then x :: l else y :: insert_sorted leb x r
  end.

(** A stable sort; on the total orders used here ([str] and [int]) every
    stable sort returns the same list as Python's. *)
Definition py_sort {A} (leb : A -> A -> bool) (l : list A) : list A :=
  fold_right (insert_sorted leb) [] l.

(** ** Strings *)

Definition newline : ascii := "010"%char.

(** [sep.join(l)] *)
Fixpoint join (sep : string) (l : list string) : string :=
  match l with
  | [] => ""
  | [x] => x
  | x :: r => x ++ sep ++ join sep r
  end.

(** [str(n)] for an [int]. *)
Definition str_int (n : Z) : string := NilZero.string_of_int (Z.to_int n).

(** [str(l)] for a list of [int]: [[100, 200]]. *)
Definition str_list (l : list Z) : string :=
  "[" ++ join ", " (map str_int l) ++ "]".

(** [str(x)] for the result of [dict.get]: a missing key prints as [None]. *)
Definition str_opt (o : option string) : string :=
  match o with Some s => s | None => "None" end.

Fixpoint startswith (p s : string) : bool :=
  match p, s with
  | EmptyString, _ => true
  | String a p', String b s' => Ascii.eqb a b && startswith p' s'
  | String _ _, EmptyString => false
  end.

(** [needle in s] on strings, as a proposition. *)
Definition contains (s needle : string) : Prop :=
  exists pre post, s = pre ++ needle ++ post.

(** *** The regular expressions of the fetch path *)

Definition is_digit (c : ascii) : bool :=
  let n := N_of_ascii c in (48 <=? n)%N && (n <=? 57)%N.

(** [\w] on ASCII text: letters, digits and the underscore. *)
Definition is_word (c : ascii) : bool :=
  let n := N_of_ascii c in
  is_digit c || ((65 <=? n)%N && (n <=? 90)%N)
             || ((97 <=? n)%N && (n <=? 122)%N) || (n =? 95)%N.

(** [re.sub("\n[NV]", "\n", s)]: drop an [N] or [V] that starts a line. *)
Fixpoint strip_markers (s : string) : string :=
  match s with
  | EmptyString => EmptyString
  | String c rest =>
      if Ascii.eqb c newline then
        match rest with
        | String d rest' =>
            if Ascii.eqb d "N" || Ascii.eqb d "V"
            then String c (strip_markers rest')
            else String c (strip_markers rest)
        | EmptyString => String c EmptyString
        end
      else String c (strip_markers rest)
  end.

(** The longest run of word characters at the head of [s], and the rest. *)
Fixpoint span_word (s : string) : string * string :=
  match s with
  | String c rest =>
      if is_word c
      then let (tok, tl) := span_word rest in (String c tok, tl)
      else (EmptyString, s)
  | EmptyString => (EmptyString, EmptyString)
  end.

(** One attempt of the pattern [(\w+) <asn>] at the head of [s].  [\w+] is
    greedy and a space is no word character, so only the longest run can be
    followed by the space: backtracking never finds another match.  The AS
    number is interpolated into the pattern; it is read as literal text,
    which is what it is for a number. *)
Definition match_here (asn s : string) : option string :=
  let (tok, tl) := span_word s in
  match tok with
  | EmptyString => None
  | _ => if startswith (" " ++ asn) tl then Some tok else None
  end.

(** [pattern.search(s)]: the leftmost position where the pattern matches;
    the result is [match.groups()[0]]. *)
Fixpoint re_search (asn s : string) : option string :=
  match match_here asn s with
  | Some g => Some g
  | None =>
      match s with
      | EmptyString => None
      | String _ rest => re_search asn rest
      end
  end.

(** [int(tok)] for a token of word characters: decimal digits, which single
    underscores may separate; [None] stands for [ValueError]. *)
Fixpoint int_digits (acc : Z) (after_digit : bool) (s : string) : option Z :=
  match s with
  | EmptyString => if after_digit then Some acc else None
  | String c rest =>
      if is_digit c
      then int_digits (10 * acc + (Z.of_N (N_of_ascii c) - 48)) true rest
      else if Ascii.eqb c "_" && after_digit then int_digits acc false rest
      else None
  end.

Definition py_int (tok : string) : option Z := int_digits 0 false tok.

(** [a == b] on lists of [int]: same length, equal element by element. *)
Fixpoint list_eqb (a b : list Z) : bool :=
  match a, b with
  | [], [] => true
  | x :: a', y :: b' => Z.eqb x y && list_eqb a' b'
  | _, _ => false
  end.

(** ** Data model *)

(** [View]: the timestamp is the ISO text of a naive [datetime]; it is kept
    as the number of microseconds it denotes ([fromisoformat] inverts
    [isoformat]). *)
Record View := { timestamp : Z; contents : Dict string (list Z) }.

(** One record of [parse_output] for [show ip bgp], with the two fields the
    program reads. *)
Record Item := { network : string; as_path : string }.

Definition PEER_TRANSLATE : Dict Z string :=
  [(3257, "GTT"); (6939, "HURRICANE")].

Definition PREFIX_TRANSLATE : Dict string string :=
  [("1.2.3.0/24", "MY_SITE")].

(** [datetime.timedelta(hours=8)], in microseconds. *)
Definition eight_hours : Z := 8 * 3600 * 1000000.

(** ** Exceptions *)

Inductive exn : Type :=
| RuntimeError (msg : string)
| ValueError (tok : string)          (* [int] of a token that is no number *)
| KeyError (k : string)
| FileNotFoundError
| TransportError (msg : string)      (* any other exception of netmiko *)
| ParseError (msg : string).         (* raised by [parse_output] *)

Inductive result (A : Type) : Type :=
| Ok (a : A)
| Raise (e : exn).
Arguments Raise {A} e.

(** ** Path normalisation (the second half of [_view_from_route_server]) *)

(** The body of [for item in parsed]. *)
Definition add_path (asn : string) (data : Dict string (list Z)) (item : Item)
  : result (Dict string (list Z)) :=
  match re_search asn (as_path item) with
  | Some tok =>
      match PyDict.get data (network item) with
      | None => Raise (KeyError (network item))
      | Some path =>
          match py_int tok with
          | None => Raise (ValueError tok)
          | Some n => Ok (PyDict.set data (network item) (path ++ [n])%list)
          end
      end
  | None => Ok data
  end.

(** A [for] loop whose body may raise. *)
Fixpoint for_each {A S : Type} (body : S -> A -> result S) (l : list A) (s : S)
  : result S :=
  match l with
  | [] => Ok s
  | x :: r =>
      match body s x with
      | Ok s' => for_each body r s'
      | Raise e => Raise e
      end
  end.

(** The body of [for network, path in data.items()]. *)
Definition sort_dedup (data : Dict string (list Z)) (kv : string * list Z)
  : Dict string (list Z) :=
  let (network, path) := kv in
  PyDict.set data network (fromkeys (py_sort Z.leb path)).

Definition normalize (asn : string) (parsed : list Item)
  : result (Dict string (list Z)) :=
  let prefix_list := py_sort String.leb (map network parsed) in
  let data := fold_left (fun d prefix => PyDict.set d prefix []) prefix_list [] in
  match for_each (add_path asn) parsed data with
  | Raise e => Raise e
  | Ok data => Ok (fold_left sort_dedup (PyDict.items data) data)
  end.

(** ** The world of one invocation *)

(** A session answers [send_command]; opening one may fail. *)
Inductive Connect : Type :=
| Connected (send_command : string -> result string)
| NetmikoAuthenticationException
| ConnectError (e : exn).

(** The collaborators: netmiko, ntc_templates and the clock.  Calls of
    [ConnectHandler] and readings of the clock are numbered from 0 within
    the invocation. *)
Record Env := {
  ConnectHandler : string -> string -> nat -> Connect;
  parse_output : string -> result (list Item);
  datetime_now : nat -> Z
}.

Inductive Event : Type :=
| EvFetch              (* [_view_from_route_server] is entered *)
| EvConnect            (* a call of [ConnectHandler] *)
| EvSleep (secs : Z)
| EvCommand            (* [send_command] *)
| EvParse              (* [parse_output] *)
| EvRead               (* [readlines] on the log file *)
| EvAppend.            (* a line is written to the log file *)

Definition Event_eqb (a b : Event) : bool :=
  match a, b with
  | EvFetch, EvFetch | EvConnect, EvConnect | EvCommand, EvCommand
  | EvParse, EvParse | EvRead, EvRead | EvAppend, EvAppend => true
  | EvSleep x, EvSleep y => Z.eqb x y
  | _, _ => false
  end.

(** How often [e] occurs in a trace. *)
Definition count (e : Event) (t : list Event) : nat :=
  List.length (filter (Event_eqb e) t).

(** The log file [/tmp/route_view.log] ([None]: it does not exist; one
    [View] per line), the two counters and the trace. *)
Record World := {
  log_file : option (list View);
  connects : nat;
  clock_reads : nat;
  trace : list Event
}.

(** The state of a fresh invocation that finds the log file [f]. *)
Definition start (f : option (list View)) : World :=
  {| log_file := f; connects := 0; clock_reads := 0; trace := [] |}.

(** ** The monad *)

Definition M (A : Type) : Type := World -> result A * World.

Definition ret {A} (a : A) : M A := fun w => (Ok a, w).

Definition bind {A B} (m : M A) (k : A -> M B) : M B :=
  fun w =>
    match m w with
    | (Ok a, w') => k a w'
    | (Raise e, w') => (Raise e, w')
    end.

Definition raise {A} (e : exn) : M A := fun w => (Raise e, w).

Definition lift {A} (r : result A) : M A := fun w => (r, w).

Notation "x <- m ;; k" := (bind m (fun x => k))
  (at level 61, m at next level, right associativity).
Notation "m ;;; k" := (bind m (fun _ => k))
  (at level 61, right associativity).

Definition emit (e : Event) : M unit :=
  fun w =>
    (Ok tt, {| log_file := log_file w; connects := connects w;
               clock_reads := clock_reads w;
               trace := (trace w ++ [e])%list |}).

Definition sleep (secs : Z) : M unit := emit (EvSleep secs).

(** [os.path.exists(FILENAME)] *)
Definition path_exists : M bool :=
  fun w => (Ok (match log_file w with Some _ => true | None => false end), w).

(** [open(FILENAME, "r")] and [readlines()] *)
Definition readlines : M (list View) :=
  fun w =>
    match log_file w with
    | None => (Raise FileNotFoundError, w)
    | Some lines => (emit EvRead;;; ret lines) w
    end.

(** [open(FILENAME, "a")] and [write]: the file is created when missing. *)
Definition append_line (v : View) : M unit :=
  fun w =>
    let lines := match log_file w with Some l => l | None => [] end in
    (Ok tt, {| log_file := Some (lines ++ [v])%list; connects := connects w;
               clock_reads := clock_reads w;
               trace := (trace w ++ [EvAppend])%list |}).

(** [lines[-1]] when there are lines, [None] otherwise. *)
Definition latest_of (lines : list View) : option View :=
  match lines with
  | [] => None
  | _ => Some (last lines {| timestamp := 0; contents := [] |})
  end.

(** ** [class RouteView] *)

(** The attributes set from the arguments of [__init__]. *)
Record RouteView := {
  hostname : string;
  username : string;
  asn : string;
  refresh : bool
}.

Section Program.
Variable env : Env.

Definition connect (host user : string) : M Connect :=
  fun w =>
    (Ok (ConnectHandler env host user (connects w)),
     {| log_file := log_file w; connects := S (connects w);
        clock_reads := clock_reads w;
        trace := (trace w ++ [EvConnect])%list |}).

Definition send (send_command : string -> result string) (command : string)
  : M string :=
  emit EvCommand;;; lift (send_command command).

Definition parse (output : string) : M (list Item) :=
  emit EvParse;;; lift (parse_output env output).

(** [datetime.datetime.now()] *)
Definition now : M Z :=
  fun w =>
    (Ok (datetime_now env (clock_reads w)),
     {| log_file := log_file w; connects := connects w;
        clock_reads := S (clock_reads w); trace := trace w |}).

Variable self : RouteView.

(** [while not success and retry >= 1]: the counter [retry] is the
    argument; [None] is the exit with [success] still false. *)
Fixpoint connect_loop (retry : nat) : M (option (string -> result string)) :=
  match retry with
  | O => ret None
  | S retry' =>
      c <- connect (hostname self) (username self);;
      match c with
      | Connected connection => ret (Some connection)
      | NetmikoAuthenticationException => sleep 3;;; connect_loop retry'
      | ConnectError e => raise e
      end
  end.

Definition _view_from_route_server : M unit :=
  emit EvFetch;;;
  connection <- connect_loop 5;;
  match connection with
  | None => raise (RuntimeError "Error logging into route-views after 5 attempts")
  | Some send_command =>
      raw <- send send_command ("show ip bgp regexp _" ++ asn self);;
      let output := strip_markers raw in
      parsed <- parse output;;
      timestamp <- now;;
      data <- lift (normalize (asn self) parsed);;
      let report := {| timestamp := timestamp; contents := data |} in
      append_line report
  end.

Definition _read_file : M (option View) :=
  lines <- readlines;;
  ret (latest_of lines).

Definition _view_from_file : M (option View) :=
  present <- path_exists;;
  (if present then ret tt else _view_from_route_server);;;
  latest_view <- _read_file;;
  match latest_view with
  | None => _view_from_route_server;;; _read_file
  | Some v => ret (Some v)
  end.

Definition _get_view : M (option View) :=
  latest_view <- _view_from_file;;
  match latest_view with
  | None => _view_from_route_server
  | Some v =>
      if refresh self then _view_from_route_server
      else
        let view_time := timestamp v in
        time_now <- now;;
        if (view_time <? time_now - eight_hours)%Z
        then _view_from_route_server
        else ret tt
  end;;;
  _view_from_file.
End Program.

(** ** The reports *)

Definition nl : string := String newline EmptyString.

Definition _get_path (path : list Z) : string :=
  join ", "
    (map (fun path =>
            match PyDict.get PEER_TRANSLATE path with
            | Some name => str_int path ++ " (" ++ name ++ ")"
            | None => str_int path ++ " (UNKNOWN AS)"
            end) path).

(** The line that one turn of the loop of [verbose_view] adds. *)
Definition verbose_line (kv : string * list Z) : string :=
  let (prefix, path) := kv in
  let string_path := _get_path path in
  "Prefix " ++ prefix ++ " (" ++ str_opt (PyDict.get PREFIX_TRANSLATE prefix)
  ++ ") is " ++ "accessible via next hop AS " ++ string_path ++ nl.

Definition verbose_view (view : View) : string :=
  fold_left (fun output kv => output ++ verbose_line kv)
            (PyDict.items (contents view)) "".

(** The body of the loop of [alert_view] on the pair [(errors, output)]. *)
Definition alert_step (intent : Dict string (list Z)) (st : bool * string)
  (kv : string * list Z) : bool * string :=
  let (errors, output) := st in
  let (prefix, path) := kv in
  match PyDict.get intent prefix with
  | None => (true, output ++ "Prefix " ++ prefix ++ " not found in intent file! ")
  | Some declared =>
      if negb (list_eqb declared path)
      then (true, output ++ "Prefix " ++ prefix ++ " intent " ++ str_list declared
                         ++ " does not " ++ "match reality " ++ str_list path ++ "  ")
      else (errors, output)
  end.

Definition alert_view (view : View) (intent : Dict string (list Z)) : string :=
  let (errors, output) :=
    fold_left (alert_step intent) (PyDict.items (contents view)) (false, "") in
  let output := if negb errors then output ++ "No alerts!" else output in
  if errors then "[CRITICAL] " ++ output else "[OK] " ++ output.


(** ** Slack: [post_to_channel] and [view_to_slack]

    The Slack client is a collaborator that answers with a response; the
    file that [view_to_slack] writes is named after the clock. *)

(** [needle in s] on [str], as Python computes it. *)
Fixpoint str_in (needle s : string) : bool :=
  startswith needle s
  || match s with
     | EmptyString => false
     | String _ rest => str_in needle rest
     end.

(** The answer of [files_upload_v2]. *)
Inductive SlackResponse : Type :=
| SlackOk
| SlackError (error : string).

(** What the notification path reads from outside: the environment
    variable, the Slack client and the clock (as ISO text). *)
Record Desk := {
  SLACK_API_TOKEN : option string;
  files_upload_v2 : string -> string -> string -> SlackResponse;
  isoformat_now : string
}.

(** What it leaves behind: the files written, the uploads asked for and the
    lines printed, latest last. *)
Record Outbox := {
  written : list (string * string);
  uploaded : list (string * string * string);
  printed : list string
}.

Inductive outcome : Type :=
| Returned
| AssertionError (msg : string).

Definition post_to_channel (desk : Desk) (channel path comment : string)
  (o : Outbox) : outcome * Outbox :=
  match SLACK_API_TOKEN desk with
  | Some (String _ _) =>
      let response := files_upload_v2 desk channel path comment in
      let o1 := {| written := written o;
                   uploaded := (uploaded o ++ [(channel, path, comment)])%list;
                   printed := printed o |} in
      match response with
      | SlackOk => (Returned, o1)
      | SlackError error =>
          (Returned,
           {| written := written o1; uploaded := uploaded o1;
              printed := (printed o1
                          ++ [("Failed to post text snippet. Error: " ++ error)%string])%list |})
      end
  | _ => (AssertionError "The 'SLACK_API_TOKEN' environment variable must be set", o)
  end.

Definition view_to_slack (desk : Desk) (channel content : string)
  (alerts_only : bool) (o : Outbox) : outcome * Outbox :=
  if negb (str_in "CRITICAL" content) && alerts_only then (Returned, o)
  else
    let filename := "/tmp/" ++ isoformat_now desk ++ "_route_view.txt" in
    let o1 := {| written := (written o ++ [(filename, content)])%list;
                 uploaded := uploaded o; printed := printed o |} in
    post_to_channel desk channel filename "route-view" o1.


(** ** Vocabulary of the statements *)

(** [a <= b] on [str]: the order [list.sort] uses on prefixes. *)
Definition str_le (a b : string) : Prop := String.leb a b = true.

(** The latest snapshot of a log file, if it exists and has a line. *)
Definition stored (f : option (list View)) : option View :=
  match f with
  | Some lines => latest_of lines
  | None => None
  end.

(** [''.join(l)] *)
Definition concat_all (l : list string) : string := fold_right append "" l.

(** What one entry of the view adds to the alert text, and whether it sets
    [errors]: the loop body of [alert_view] run on a clean state. *)
Definition finding (intent : Dict string (list Z)) (kv : string * list Z) : string :=
  snd (alert_step intent (false, "") kv).

Definition flagged (intent : Dict string (list Z)) (kv : string * list Z) : bool :=
  fst (alert_step intent (false, "") kv).

(** The verbose report as the specification words it: the alias of the
    prefix in parentheses, or nothing when the prefix has no alias. *)
Definition verbose_line_spec (kv : string * list Z) : string :=
  let (prefix, path) := kv in
  "Prefix " ++ prefix
  ++ match PyDict.get PREFIX_TRANSLATE prefix with
     | Some name => " (" ++ name ++ ")"
     | None => ""
     end
  ++ " is accessible via next hop AS " ++ _get_path path ++ nl.

Definition verbose_view_spec (view : View) : string :=
  concat_all (map verbose_line_spec (PyDict.items (contents view))).

(** *** Sample inputs *)

Definition sample_self (force : bool) : RouteView :=
  {| hostname := "route-views.routeviews.org"; username := "rviews";
     asn := "65000"; refresh := force |}.

(** A route server that answers, with two paths to one prefix and one
    prefix without the adjacency. *)
Definition sample_env : Env :=
  {| ConnectHandler := fun _ _ _ => Connected (fun _ => Ok "raw");
     parse_output := fun _ =>
       Ok [ {| network := "9.9.9.0/24"; as_path := "3257 1299 65000 i" |};
            {| network := "1.2.3.0/24"; as_path := "6939 65000 i" |};
            {| network := "1.2.3.0/24"; as_path := "3257 65000 65000 i" |};
            {| network := "5.5.5.0/24"; as_path := "65000 i" |} ];
     datetime_now := fun n => Z.of_nat n |}.

(** A route server that refuses every login. *)
Definition locked_env : Env :=
  {| ConnectHandler := fun _ _ _ => NetmikoAuthenticationException;
     parse_output := fun _ => Ok [];
     datetime_now := fun n => Z.of_nat n |}.

(** A route server whose answer does not parse. *)
Definition garbled_env : Env :=
  {| ConnectHandler := fun _ _ _ => Connected (fun _ => Ok "raw");
     parse_output := fun _ => Raise (ParseError "no template matched");
     datetime_now := fun n => Z.of_nat n |}.

(** A clock that always shows 08:00:00 of the first day, in microseconds. *)
Definition eight_oclock_env : Env :=
  {| ConnectHandler := ConnectHandler sample_env;
     parse_output := parse_output sample_env;
     datetime_now := fun _ => 28800000000 |}.

Definition sample_view (ts : Z) : View :=
  {| timestamp := ts; contents := [("1.2.3.0/24", [3257])] |}.

(** The lines of the log file; none when it does not exist. *)
Definition lines_of (f : option (list View)) : list View :=
  match f with Some l => l | None => [] end.

(** What a successful fetch asked the route server, parsed and kept in the
    snapshot [v]. *)
Definition fetched (env : Env) (self : RouteView) (v : View) : Prop :=
  exists k send_command raw parsed,
    ConnectHandler env (hostname self) (username self) k = Connected send_command
    /\ send_command ("show ip bgp regexp _" ++ asn self) = Ok raw
    /\ parse_output env (strip_markers raw) = Ok parsed
    /\ normalize (asn self) parsed = Ok (contents v).

(** A piece of trace without fetch, read or append. *)
Definition quiet (t : list Event) : Prop :=
  count EvFetch t = 0%nat /\ count EvRead t = 0%nat /\ count EvAppend t = 0%nat.

(** The path that the last loop of the fetch leaves for [path]. *)
Definition canonical (path : list Z) : list Z := fromkeys (py_sort Z.leb path).

(** The AS number that the loop over the records reads off [item]: the
    token before the AS number, when there is one and it is a number. *)
Definition peer_of (asn : string) (item : Item) : option Z :=
  match re_search asn (as_path item) with
  | Some tok => py_int tok
  | None => None
  end.



(** The value that a run returned, if it returned. *)
Definition fst_ok {A} (x : result (option A) * World) : option A :=
  match fst x with
  | Ok o => o
  | Raise _ => None
  end.

(** The trace of [j] refused logins. *)
Definition refusals (j : nat) : list Event :=
  List.concat (repeat [EvConnect; EvSleep 3] j).

(** From [w] to [w'] the log file only gained lines, one per append of the
    trace, and was not removed. *)
Definition appends_only (w w' : World) : Prop :=
  exists new t,
    lines_of (log_file w') = (lines_of (log_file w) ++ new)%list
    /\ trace w' = (trace w ++ t)%list
    /\ List.length new = count EvAppend t
    /\ (log_file w <> None -> log_file w' <> None).

(** Every run of [m] only appends to the log file. *)
Definition keeps {A} (m : M A) : Prop :=
  forall w r w', m w = (r, w') -> appends_only w w'.


(** The artifact that [view_to_slack] writes. *)
Definition artifact (desk : Desk) : string :=
  "/tmp/" ++ isoformat_now desk ++ "_route_view.txt".

(** [os.environ.get("SLACK_API_TOKEN")] is set and not empty. *)
Definition token_set (desk : Desk) : bool :=
  match SLACK_API_TOKEN desk with
  | Some (String _ _) => true
  | _ => false
  end.

(** *** More sample inputs *)

(** A route server that refuses one login and then drops the connection. *)
Definition dropping_env : Env :=
  {| ConnectHandler := fun _ _ k =>
       match k with
       | O => NetmikoAuthenticationException
       | _ => ConnectError (TransportError "connection refused")
       end;
     parse_output := fun _ => Ok [];
     datetime_now := fun n => Z.of_nat n |}.

(** A route server that refuses two logins and then answers like
    [sample_env]. *)
Definition flaky_env : Env :=
  {| ConnectHandler := fun _ _ k =>
       match k with
       | O | 1%nat => NetmikoAuthenticationException
       | _ => Connected (fun _ => Ok "raw")
       end;
     parse_output := parse_output sample_env;
     datetime_now := fun n => Z.of_nat n |}.


Definition sample_desk (token : option string) : Desk :=
  {| SLACK_API_TOKEN := token;
     files_upload_v2 := fun _ _ _ => SlackError "channel_not_found";
     isoformat_now := "2024-01-01T08:00:00" |}.

Definition empty_outbox : Outbox :=
  {| written := []; uploaded := []; printed := [] |}.

(** * Facts *)

(** ** Ordered dictionaries *)

Section DictFacts.
Context {K V : Type} `{Key K}.
Implicit Types (d : Dict K V) (k : K) (v : V).

Lemma key_eqb_refl k : key_eqb k k = true.
Proof. destruct (key_eqb_spec k k); congruence. Qed.

Lemma key_eqb_neq k k' : k <> k' -> key_eqb k k' = false.
Proof. destruct (key_eqb_spec k k'); congruence. Qed.

Lemma get_None_iff d k : PyDict.get d k = None <-> ~ In k (PyDict.keys d).
Proof.
  induction d as [|[k' v'] r IH]; simpl.
  - tauto.
  - destruct (key_eqb_spec k k') as [->|Hne].
    + split; [discriminate | intros Hn; exfalso; apply Hn; now left].
    + rewrite IH. split; [intros Hn [E|Hi]; congruence | tauto].
Qed.

Lemma get_In d k v : PyDict.get d k = Some v -> In (k, v) d.
Proof.
  induction d as [|[k' v'] r IH]; simpl; [discriminate|].
  destruct (key_eqb_spec k k') as [->|Hne].
  - intros [= ->]. now left.
  - intros Hg. right. auto.
Qed.

Lemma In_get d k v : NoDup (PyDict.keys d) -> In (k, v) d -> PyDict.get d k = Some v.
Proof.
  induction d as [|[k' v'] r IH]; simpl; [tauto|].
  intros Hnd [E|Hi].
  - inversion E; subst. now rewrite key_eqb_refl.
  - inversion Hnd as [|? ? Hn Hnd']; subst.
    destruct (key_eqb_spec k k') as [->|Hne].
    + exfalso. apply Hn. change (In (fst (k', v)) (map fst r)). now apply in_map.
    + auto.
Qed.

Lemma keys_set_in d k v : In k (PyDict.keys d) -> PyDict.keys (PyDict.set d k v) = PyDict.keys d.
Proof.
  induction d as [|[k' v'] r IH]; simpl; [tauto|].
  destruct (key_eqb_spec k k') as [->|Hne]; simpl; [reflexivity|].
  intros [E|Hi]; [congruence|]. f_equal. now apply IH.
Qed.

Lemma keys_set_notin d k v :
  ~ In k (PyDict.keys d) -> PyDict.keys (PyDict.set d k v) = (PyDict.keys d ++ [k])%list.
Proof.
  induction d as [|[k' v'] r IH]; simpl; [reflexivity|].
  intros Hn. destruct (key_eqb_spec k k') as [->|Hne]; simpl.
  - exfalso. apply Hn. now left.
  - f_equal. apply IH. tauto.
Qed.

Lemma get_set_same d k v : PyDict.get (PyDict.set d k v) k = Some v.
Proof.
  induction d as [|[k' v'] r IH]; simpl.
  - now rewrite key_eqb_refl.
  - destruct (key_eqb_spec k k') as [->|Hne]; simpl.
    + now rewrite key_eqb_refl.
    + now rewrite key_eqb_neq.
Qed.

Lemma get_set_other d k k' v :
  k <> k' -> PyDict.get (PyDict.set d k v) k' = PyDict.get d k'.
Proof.
  intros Hne. induction d as [|[k0 u] r IH]; simpl.
  - rewrite key_eqb_neq; congruence.
  - destruct (key_eqb_spec k k0) as [->|Hne0]; simpl.
    + rewrite key_eqb_neq; congruence.
    + now rewrite IH.
Qed.

Lemma set_middle (a r : Dict K V) k v v' :
  ~ In k (PyDict.keys a) ->
  PyDict.set (a ++ (k, v) :: r)%list k v' = (a ++ (k, v') :: r)%list.
Proof.
  induction a as [|[k0 v0] a IH]; simpl; intros Hn.
  - now rewrite key_eqb_refl.
  - rewrite key_eqb_neq by (intros ->; apply Hn; now left).
    f_equal. apply IH. tauto.
Qed.

(** Filling a dictionary with one value per key of a list: the shape of
    both [{prefix: [] for prefix in prefix_list}] and [dict.fromkeys]. *)
Section Fill.
Variable v0 : V.

Lemma fill_keys_In l : forall d x,
  In x (PyDict.keys (fold_left (fun d x => PyDict.set d x v0) l d)) <-> In x (PyDict.keys d) \/ In x l.
Proof.
  induction l as [|y l IH]; intros d x; simpl.
  - tauto.
  - rewrite IH.
    destruct (in_dec (fun a b => reflect_dec _ _ (key_eqb_spec a b)) y (PyDict.keys d)) as [Hi|Hn].
    + rewrite keys_set_in by assumption.
      split; [tauto|]. intros [?|[<-|?]]; tauto.
    + rewrite keys_set_notin by assumption. rewrite in_app_iff. simpl.
      split; [tauto|]. intros [?|[<-|?]]; tauto.
Qed.

Lemma fill_keys_NoDup l : forall d,
  NoDup (PyDict.keys d) -> NoDup (PyDict.keys (fold_left (fun d x => PyDict.set d x v0) l d)).
Proof.
  induction l as [|y l IH]; intros d Hnd; simpl; [assumption|].
  apply IH.
  destruct (in_dec (fun a b => reflect_dec _ _ (key_eqb_spec a b)) y (PyDict.keys d)) as [Hi|Hn].
  - now rewrite keys_set_in.
  - rewrite keys_set_notin by assumption.
    apply NoDup_app; [assumption | repeat constructor; tauto |].
    intros x Hx [<-|[]]. tauto.
Qed.

Lemma StronglySorted_remove (R : K -> K -> Prop) (a b : list K) x :
  StronglySorted R (a ++ x :: b) -> StronglySorted R (a ++ b).
Proof.
  induction a as [|y a IH]; simpl; intros Hs.
  - now inversion Hs.
  - inversion Hs as [|? ? Hs' Hf]; subst. constructor; [auto|].
    rewrite Forall_app in *. destruct Hf as [Ha Hb].
    split; [assumption | now inversion Hb].
Qed.

Lemma fill_keys_sorted (R : K -> K -> Prop) l : forall d,
  StronglySorted R (PyDict.keys d ++ l) ->
  StronglySorted R (PyDict.keys (fold_left (fun d x => PyDict.set d x v0) l d)).
Proof.
  induction l as [|y l IH]; intros d Hs; simpl.
  - now rewrite app_nil_r in Hs.
  - apply IH.
    destruct (in_dec (fun a b => reflect_dec _ _ (key_eqb_spec a b)) y (PyDict.keys d)) as [Hi|Hn].
    + rewrite keys_set_in by assumption. eapply StronglySorted_remove; eauto.
    + rewrite keys_set_notin by assumption. now rewrite <- app_assoc.
Qed.

Lemma fill_values l : forall d,
  Forall (fun kv => snd kv = v0) d -> Forall (fun kv => snd kv = v0) (fold_left (fun d x => PyDict.set d x v0) l d).
Proof.
  induction l as [|y l IH]; intros d Hd; simpl; [assumption|].
  apply IH. clear IH. induction Hd as [|[k v] r Hv Hd IHd]; simpl.
  - repeat constructor.
  - destruct (key_eqb y k); constructor; auto.
Qed.
End Fill.
End DictFacts.

(** ** Sorting *)

Section SortFacts.
Context {A : Type} (leb : A -> A -> bool).
Hypothesis leb_total : forall a b, leb a b = true \/ leb b a = true.
Hypothesis leb_trans :
  forall a b c, leb a b = true -> leb b c = true -> leb a c = true.

Lemma insert_sorted_perm x l : Permutation (x :: l) (insert_sorted leb x l).
Proof.
  induction l as [|y l IH]; simpl; [reflexivity|].
  destruct (leb x y); [reflexivity|].
  rewrite perm_swap. now constructor.
Qed.

Lemma py_sort_perm l : Permutation l (py_sort leb l).
Proof.
  induction l as [|x l IH]; simpl; [constructor|].
  rewrite <- insert_sorted_perm. now constructor.
Qed.

Lemma insert_sorted_sorted x l :
  StronglySorted (fun a b => leb a b = true) l ->
  StronglySorted (fun a b => leb a b = true) (insert_sorted leb x l).
Proof.
  induction 1 as [|y l Hs IH Hf]; simpl.
  - repeat constructor.
  - destruct (leb x y) eqn:E.
    + constructor; [now constructor|].
      constructor; [assumption|].
      eapply Forall_impl; [|exact Hf]. intros z Hz. simpl in Hz. eauto.
    + constructor; [assumption|].
      eapply Permutation_Forall; [apply insert_sorted_perm|].
      constructor; [|assumption].
      destruct (leb_total x y); congruence.
Qed.

Lemma py_sort_sorted l : StronglySorted (fun a b => leb a b = true) (py_sort leb l).
Proof.
  induction l as [|x l IH]; simpl; [constructor|].
  now apply insert_sorted_sorted.
Qed.
End SortFacts.

Lemma str_leb_trans a : forall b c,
  String.leb a b = true -> String.leb b c = true -> String.leb a c = true.
Proof.
  unfold String.leb.
  induction a as [|x a IH]; intros [|y b] [|z c]; simpl; try easy.
  unfold Ascii.compare.
  destruct (N.compare_spec (N_of_ascii x) (N_of_ascii y));
    destruct (N.compare_spec (N_of_ascii y) (N_of_ascii z));
    destruct (N.compare_spec (N_of_ascii x) (N_of_ascii z));
    try easy; try lia.
  apply IH.
Qed.

Lemma Z_leb_total a b : Z.leb a b = true \/ Z.leb b a = true.
Proof. rewrite !Z.leb_le. lia. Qed.

Lemma Z_leb_trans a b c : Z.leb a b = true -> Z.leb b c = true -> Z.leb a c = true.
Proof. rewrite !Z.leb_le. lia. Qed.

Lemma StronglySorted_impl {A} (R S : A -> A -> Prop) l :
  (forall a b, R a b -> S a b) -> StronglySorted R l -> StronglySorted S l.
Proof.
  intros HRS. induction 1 as [|x l Hs IH Hf]; constructor; auto.
  eapply Forall_impl; [|exact Hf]. auto.
Qed.

(** ** [dict.fromkeys] *)

Section FromkeysFacts.
Context {K : Type} `{Key K}.

Lemma fromkeys_In (l : list K) x : In x (fromkeys l) <-> In x l.
Proof. unfold fromkeys. rewrite fill_keys_In. simpl. tauto. Qed.

Lemma fromkeys_NoDup (l : list K) : NoDup (fromkeys l).
Proof. apply fill_keys_NoDup. constructor. Qed.

Lemma fromkeys_sorted (R : K -> K -> Prop) (l : list K) :
  StronglySorted R l -> StronglySorted R (fromkeys l).
Proof. intros Hs. apply fill_keys_sorted. exact Hs. Qed.
End FromkeysFacts.

(** What the last loop of the fetch leaves in a path. *)
Lemma canonical_path (path : list Z) :
  StronglySorted Z.le (fromkeys (py_sort Z.leb path))
  /\ NoDup (fromkeys (py_sort Z.leb path))
  /\ (forall n, In n (fromkeys (py_sort Z.leb path)) <-> In n path).
Proof.
  split; [|split].
  - apply fromkeys_sorted.
    apply StronglySorted_impl with (R := fun a b => Z.leb a b = true).
    + intros a b. apply Z.leb_le.
    + apply py_sort_sorted; [exact Z_leb_total | exact Z_leb_trans].
  - apply fromkeys_NoDup.
  - intros n. rewrite fromkeys_In.
    split; intros Hi.
    + eapply Permutation_in; [symmetry; apply py_sort_perm | exact Hi].
    + eapply Permutation_in; [apply py_sort_perm | exact Hi].
Qed.

(** ** Normalisation *)

Section NormalizeFacts.
Variable asn : string.
Implicit Types (data : Dict string (list Z)) (item : Item).

Lemma add_path_keys data item data' :
  add_path asn data item = Ok data' -> PyDict.keys data' = PyDict.keys data.
Proof.
  unfold add_path.
  destruct (re_search asn (as_path item)); [|now intros [= ->]].
  destruct (PyDict.get data (network item)) eqn:G; [|discriminate].
  destruct (py_int s); [|discriminate].
  intros [= <-]. apply keys_set_in.
  destruct (in_dec string_dec (network item) (PyDict.keys data)) as [Hi|Hn]; [assumption|].
  apply get_None_iff in Hn. congruence.
Qed.

Lemma for_each_add_path_keys parsed : forall data data',
  for_each (add_path asn) parsed data = Ok data' ->
  PyDict.keys data' = PyDict.keys data.
Proof.
  induction parsed as [|item parsed IH]; simpl; intros data data'.
  - now intros [= ->].
  - destruct (add_path asn data item) as [d1|] eqn:E; [|discriminate].
    intros Hf. rewrite (IH _ _ Hf). eapply add_path_keys; eauto.
Qed.

(** A prefix whose records never show the adjacency keeps its empty list. *)
Lemma for_each_add_path_empty p parsed : forall data data',
  for_each (add_path asn) parsed data = Ok data' ->
  PyDict.get data p = Some [] ->
  (forall item, In item parsed -> network item = p ->
                re_search asn (as_path item) = None) ->
  PyDict.get data' p = Some [].
Proof.
  induction parsed as [|item parsed IH]; simpl; intros data data'.
  - now intros [= ->].
  - destruct (add_path asn data item) as [d1|] eqn:E; [|discriminate].
    intros Hf Hg Hnone. apply (IH _ _ Hf); [|auto].
    unfold add_path in E.
    destruct (re_search asn (as_path item)) eqn:R; [|now inversion E; subst].
    destruct (PyDict.get data (network item)) eqn:G; [|discriminate].
    destruct (py_int s); [|discriminate].
    inversion E; subst. rewrite get_set_other; [assumption|].
    intros Heq. rewrite (Hnone item) in R by auto. discriminate.
Qed.

Lemma sort_dedup_fold (r : Dict string (list Z)) : forall a : Dict string (list Z),
  NoDup (PyDict.keys (a ++ r)%list) ->
  fold_left sort_dedup r (a ++ r)%list
  = (a ++ map (fun kv => (fst kv, fromkeys (py_sort Z.leb (snd kv)))) r)%list.
Proof.
  induction r as [|[k v] r IH]; intros a Hnd; simpl.
  - reflexivity.
  - rewrite set_middle.
    + change (a ++ (k, fromkeys (py_sort Z.leb v)) :: r)%list
        with (a ++ [(k, fromkeys (py_sort Z.leb v))] ++ r)%list.
      rewrite app_assoc, IH, <- app_assoc; [reflexivity|].
      unfold PyDict.keys in *. rewrite <- app_assoc.
      rewrite !map_app in *. exact Hnd.
    + unfold PyDict.keys in Hnd. rewrite map_app in Hnd. simpl in Hnd.
      apply NoDup_remove_2 in Hnd. rewrite in_app_iff in Hnd. tauto.
Qed.

Lemma normalize_ok parsed data :
  normalize asn parsed = Ok data ->
  (forall p l, In (p, l) (PyDict.items data) -> StronglySorted Z.le l /\ NoDup l)
  /\ (forall p, In p (PyDict.keys data) <-> In p (map network parsed))
  /\ (forall p, In p (map network parsed) ->
        (forall item, In item parsed -> network item = p ->
                      re_search asn (as_path item) = None) ->
        PyDict.get data p = Some [])
  /\ StronglySorted str_le (PyDict.keys data)
  /\ NoDup (PyDict.keys data).
Proof.
  unfold normalize.
  set (prefix_list := py_sort String.leb (map network parsed)).
  set (data0 := fold_left (fun d prefix => PyDict.set d prefix []) prefix_list []).
  destruct (for_each (add_path asn) parsed data0) as [data1|] eqn:E; [|discriminate].
  intros [= <-].
  pose proof (for_each_add_path_keys _ _ E) as Hk.
  assert (Hnd0 : NoDup (PyDict.keys data0)) by (apply fill_keys_NoDup; constructor).
  assert (Hnd1 : NoDup (PyDict.keys data1)) by now rewrite Hk.
  pose proof (sort_dedup_fold data1 [] Hnd1) as Hfold. simpl in Hfold.
  unfold PyDict.items. rewrite Hfold.
  assert (Hkeys : PyDict.keys
            (map (fun kv : string * list Z =>
                    (fst kv, fromkeys (py_sort Z.leb (snd kv)))) data1)
          = PyDict.keys data0).
  { unfold PyDict.keys in *. rewrite map_map. simpl. exact Hk. }
  assert (Hin0 : forall p, In p (PyDict.keys data0) <-> In p (map network parsed)).
  { intros p. unfold data0. rewrite fill_keys_In. simpl.
    unfold prefix_list. split.
    - intros [[]|Hi]. eapply Permutation_in; [symmetry; apply py_sort_perm|exact Hi].
    - intros Hi. right. eapply Permutation_in; [apply py_sort_perm|exact Hi]. }
  repeat split.
  - apply in_map_iff in H. destruct H as [[k v] [[= <- <-] _]].
    apply canonical_path.
  - apply in_map_iff in H. destruct H as [[k v] [[= <- <-] _]].
    apply canonical_path.
  - rewrite Hkeys. apply Hin0.
  - rewrite Hkeys. apply Hin0.
  - intros p Hp Hnone.
    assert (G0 : PyDict.get data0 p = Some []).
    { apply Hin0 in Hp.
      destruct (PyDict.get data0 p) as [l|] eqn:G;
        [|apply get_None_iff in G; tauto].
      apply get_In in G.
      pose proof (@fill_values string (list Z) _ [] prefix_list []
                    (Forall_nil _)) as Hv.
      rewrite Forall_forall in Hv. specialize (Hv _ G). simpl in Hv.
      now subst. }
    assert (G1 : PyDict.get data1 p = Some [])
      by (eapply for_each_add_path_empty; eauto).
    apply In_get.
    + now rewrite Hkeys.
    + apply get_In in G1. apply in_map_iff. exists (p, []). split; [reflexivity|assumption].
  - rewrite Hkeys. unfold data0. apply fill_keys_sorted. simpl.
    apply py_sort_sorted; [exact String.leb_total | exact str_leb_trans].
  - now rewrite Hkeys.
Qed.
End NormalizeFacts.

(** ** Effects of the fetch and of the cache *)

Lemma count_app e a b : count e (a ++ b)%list = (count e a + count e b)%nat.
Proof. unfold count. now rewrite filter_app, length_app. Qed.

Lemma count_cons e x t :
  count e (x :: t) = ((if Event_eqb e x then 1 else 0) + count e t)%nat.
Proof. unfold count. simpl. now destruct (Event_eqb e x). Qed.

Lemma count_nil e : count e [] = 0%nat.
Proof. reflexivity. Qed.

Ltac splits := repeat match goal with |- _ /\ _ => split end.

Ltac tally :=
  repeat first [rewrite count_app | rewrite count_cons | rewrite count_nil];
  simpl;
  try solve [reflexivity | lia | assumption].

Section Effects.
Variable env : Env.
Variable self : RouteView.

Lemma connect_loop_frame n : forall w r w',
  connect_loop env self n w = (r, w') ->
  log_file w' = log_file w /\ clock_reads w' = clock_reads w
  /\ (forall c, r = Ok (Some c) ->
        exists k, ConnectHandler env (hostname self) (username self) k = Connected c)
  /\ exists t, trace w' = (trace w ++ t)%list /\ quiet t.
Proof.
  induction n as [|n IH]; intros w r w'; simpl.
  - intros [= <- <-]. repeat split; auto; [discriminate|].
    exists []. rewrite app_nil_r. repeat split.
  - unfold bind, connect. simpl.
    destruct (ConnectHandler env (hostname self) (username self) (connects w)) eqn:C.
    + intros [= <- <-]. simpl. repeat split; auto.
      * intros c [= <-]. eauto.
      * exists [EvConnect]. repeat split.
    + intros Hl. apply IH in Hl. simpl in Hl.
      destruct Hl as (Hf & Hc & Hk & t & Ht & Hq).
      repeat split; auto. exists (EvConnect :: EvSleep 3 :: t).
      rewrite Ht, <- !app_assoc. split; [reflexivity|].
      destruct Hq as (?&?&?); unfold quiet; splits; tally.
    + intros [= <- <-]. simpl. repeat split; auto; [discriminate|].
      exists [EvConnect]. repeat split.
Qed.

Lemma fetch_effect w r w' :
  _view_from_route_server env self w = (r, w') ->
  exists t, trace w' = (trace w ++ EvFetch :: t)%list
    /\ count EvFetch t = 0%nat /\ count EvRead t = 0%nat
    /\ match r with
       | Ok _ =>
           count EvAppend t = 1%nat /\ clock_reads w' = S (clock_reads w)
           /\ exists v, log_file w' = Some (lines_of (log_file w) ++ [v])%list
                        /\ timestamp v = datetime_now env (clock_reads w)
                        /\ fetched env self v
       | Raise _ => count EvAppend t = 0%nat /\ log_file w' = log_file w
       end.
Proof.
  unfold _view_from_route_server, bind at 1, emit at 1.
  unfold bind at 1.
  destruct (connect_loop env self 5 _) as [[[c|]|e] w1] eqn:L;
    apply connect_loop_frame in L; cbn [log_file clock_reads trace] in L;
    destruct L as (Hf & Hc & Hk & t & Ht & Hq1 & Hq2 & Hq3).
  - unfold bind, send, parse, emit, lift, now, append_line. simpl.
    destruct (c _) as [raw|e] eqn:S1.
    + destruct (parse_output env (strip_markers raw)) as [parsed|e] eqn:P.
      * destruct (normalize (asn self) parsed) as [data|e] eqn:N.
        -- intros [= <- <-]. simpl.
           exists (t ++ [EvCommand; EvParse; EvAppend])%list.
           rewrite Ht, <- !app_assoc. simpl. splits; tally.
           eexists; splits;
             [rewrite Hf; reflexivity | simpl; rewrite Hc; reflexivity |].
           destruct (Hk c eq_refl) as [k Hk']. exists k, c, raw, parsed. auto.
        -- intros [= <- <-]. simpl.
           exists (t ++ [EvCommand; EvParse])%list.
           rewrite Ht, <- !app_assoc. simpl. splits; tally.
      * intros [= <- <-]. simpl.
        exists (t ++ [EvCommand; EvParse])%list.
        rewrite Ht, <- !app_assoc. simpl. splits; tally.
    + intros [= <- <-]. simpl.
      exists (t ++ [EvCommand])%list.
      rewrite Ht, <- !app_assoc. simpl. splits; tally.
  - unfold raise. intros [= <- <-]. exists t. rewrite Ht, <- app_assoc. simpl. auto.
  - intros [= <- <-]. exists t. rewrite Ht, <- app_assoc. simpl. auto.
Qed.

Lemma latest_of_snoc l v : latest_of (l ++ [v])%list = Some v.
Proof.
  unfold latest_of. rewrite last_last. destruct l; reflexivity.
Qed.

Lemma view_from_file_stored w v :
  stored (log_file w) = Some v ->
  _view_from_file env self w
  = (Ok (Some v),
     {| log_file := log_file w; connects := connects w;
        clock_reads := clock_reads w; trace := (trace w ++ [EvRead])%list |}).
Proof.
  unfold stored, _view_from_file, _read_file, readlines, path_exists, bind, emit, ret.
  destruct (log_file w) as [lines|] eqn:F; [|discriminate].
  intros Hl. cbv beta. rewrite F. cbv beta iota. now rewrite Hl.
Qed.

Lemma bind_eq {A B} (m : M A) (k : A -> M B) w :
  bind m k w
  = match m w with
    | (Ok a, w') => k a w'
    | (Raise e, w') => (Raise e, w')
    end.
Proof. reflexivity. Qed.

Lemma read_file_some w lines :
  log_file w = Some lines ->
  _read_file w
  = (Ok (latest_of lines),
     {| log_file := log_file w; connects := connects w;
        clock_reads := clock_reads w; trace := (trace w ++ [EvRead])%list |}).
Proof.
  unfold _read_file, readlines, bind, emit, ret. cbv beta.
  destruct (log_file w); [intros [= ->]; reflexivity | discriminate].
Qed.

Lemma view_from_file_bootstrap w r w' :
  stored (log_file w) = None ->
  _view_from_file env self w = (r, w') ->
  exists t, trace w' = (trace w ++ t)%list
    /\ count EvFetch t = 1%nat
    /\ (count EvAppend t <= 1)%nat /\ (count EvRead t <= 2)%nat
    /\ match r with
       | Ok o =>
           exists v, o = Some v /\ stored (log_file w') = Some v
             /\ timestamp v = datetime_now env (clock_reads w)
             /\ clock_reads w' = S (clock_reads w)
       | Raise _ => True
       end.
Proof.
  unfold stored, _view_from_file. rewrite bind_eq. unfold path_exists at 1.
  destruct (log_file w) as [lines|] eqn:F; intros Hl.
  - rewrite bind_eq. unfold ret at 1. rewrite bind_eq.
    rewrite (@read_file_some _ _ F), Hl, bind_eq.
    destruct (_view_from_route_server env self _) as [[[]|e] w1] eqn:E;
      apply fetch_effect in E; cbn [trace log_file clock_reads] in E;
      destruct E as (t & Ht & Hf & Hr & Hpost).
    + destruct Hpost as (Ha & Hc & v & Hlog & Hts & _).
      rewrite (@read_file_some _ _ Hlog), latest_of_snoc.
      intros [= <- <-]. cbn [trace log_file clock_reads].
      exists ([EvRead] ++ (EvFetch :: t) ++ [EvRead])%list.
      rewrite Ht, <- !app_assoc. simpl. splits; tally.
      exists v. rewrite Hlog. simpl. rewrite latest_of_snoc. auto.
    + intros [= <- <-]. exists ([EvRead] ++ EvFetch :: t)%list.
      rewrite Ht, <- !app_assoc. simpl. splits; tally.
  - rewrite bind_eq.
    destruct (_view_from_route_server env self w) as [[[]|e] w1] eqn:E;
      apply fetch_effect in E; destruct E as (t & Ht & Hf & Hr & Hpost).
    + destruct Hpost as (Ha & Hc & v & Hlog & Hts & _). rewrite F in Hlog.
      rewrite bind_eq, (@read_file_some _ _ Hlog). simpl.
      intros [= <- <-]. simpl.
      exists ((EvFetch :: t) ++ [EvRead])%list.
      rewrite Ht, <- !app_assoc. simpl. splits; tally.
      exists v. rewrite Hlog. auto.
    + intros [= <- <-]. exists (EvFetch :: t)%list. splits; tally.
Qed.

Lemma fetch_then_read w r w' :
  (_view_from_route_server env self;;; _view_from_file env self) w = (r, w') ->
  exists t, trace w' = (trace w ++ t)%list
    /\ count EvFetch t = 1%nat
    /\ (count EvAppend t <= 1)%nat /\ (count EvRead t <= 1)%nat.
Proof.
  rewrite bind_eq.
  destruct (_view_from_route_server env self w) as [[[]|e] w1] eqn:E;
    apply fetch_effect in E; destruct E as (t & Ht & Hf & Hr & Hpost).
  - destruct Hpost as (Ha & Hc & v & Hlog & _).
    rewrite (@view_from_file_stored w1 v)
      by (rewrite Hlog; simpl; apply latest_of_snoc).
    intros [= <- <-]. cbn [trace].
    exists ((EvFetch :: t) ++ [EvRead])%list.
    rewrite Ht, <- !app_assoc. splits; tally.
  - intros [= <- <-]. exists (EvFetch :: t). destruct Hpost. splits; tally.
Qed.

(** The refresh decision of [_get_view] on a stored view and the read
    that follows it. *)
Lemma refresh_effect w v r w' :
  stored (log_file w) = Some v ->
  ((if refresh self then _view_from_route_server env self
    else
      time_now <- now env;;
      if (timestamp v <? time_now - eight_hours)%Z
      then _view_from_route_server env self
      else ret tt);;;
   _view_from_file env self) w = (r, w') ->
  exists t, trace w' = (trace w ++ t)%list
    /\ (count EvAppend t <= count EvFetch t)%nat
    /\ (count EvRead t <= 1)%nat
    /\ count EvFetch t
       = if refresh self
            || (timestamp v <? datetime_now env (clock_reads w) - eight_hours)%Z
         then 1%nat else 0%nat.
Proof.
  intros Hs. destruct (refresh self); cbn [orb].
  - intros Hr. apply fetch_then_read in Hr.
    destruct Hr as (t & Ht & Hf & Ha & Hr). exists t. splits; tally.
  - rewrite bind_eq, bind_eq. unfold now at 1.
    destruct (timestamp v <? datetime_now env (clock_reads w) - eight_hours)%Z.
    + rewrite <- bind_eq. intros Hr. apply fetch_then_read in Hr.
      destruct Hr as (t & Ht & Hf & Ha & Hr). exists t. cbn [trace] in Ht.
      splits; tally.
    + unfold ret at 1. rewrite (@view_from_file_stored _ v) by exact Hs.
      intros [= <- <-]. cbn [trace]. exists [EvRead]. splits; tally.
Qed.

Lemma get_view_effect w r w' :
  _get_view env self w = (r, w') ->
  exists t, trace w' = (trace w ++ t)%list
    /\ (count EvAppend t <= count EvFetch t)%nat
    /\ (count EvRead t <= 3)%nat
    /\ (forall v, stored (log_file w) = Some v ->
          (count EvRead t <= 2)%nat
          /\ count EvFetch t
             = if refresh self
                  || (timestamp v <? datetime_now env (clock_reads w) - eight_hours)%Z
               then 1%nat else 0%nat)
    /\ (stored (log_file w) = None ->
          (1 <= count EvFetch t)%nat
          /\ (refresh self = false ->
              datetime_now env (S (clock_reads w)) - datetime_now env (clock_reads w)
              <= eight_hours ->
              count EvFetch t = 1%nat)).
Proof.
  unfold _get_view. rewrite bind_eq.
  destruct (stored (log_file w)) as [v|] eqn:Hs.
  - rewrite (view_from_file_stored _ Hs). intros Hr.
    apply (@refresh_effect _ v) in Hr; [|exact Hs].
    cbn [trace clock_reads] in Hr. destruct Hr as (t & Ht & Ha & Hr & Hf).
    exists ([EvRead] ++ t)%list. rewrite Ht, <- app_assoc.
    splits; tally.
    + intros v' [= <-]. split; tally.
    + discriminate.
  - destruct (_view_from_file env self w) as [[o|e] w1] eqn:E;
      apply view_from_file_bootstrap in E; try exact Hs;
      destruct E as (t1 & Ht1 & Hf1 & Ha1 & Hr1 & Hpost).
    + destruct Hpost as (v & -> & Hs1 & Hts & Hc). intros Hr.
      apply (@refresh_effect _ v) in Hr; [|exact Hs1].
      destruct Hr as (t & Ht & Ha & Hr & Hf).
      exists (t1 ++ t)%list. rewrite Ht, Ht1, <- app_assoc.
      splits; tally.
      * discriminate.
      * intros _. split; [lia|]. intros Hno Hclock.
        rewrite Hf, Hno, Hts, Hc. cbn [orb].
        destruct (Z.ltb_spec (datetime_now env (clock_reads w))
                    (datetime_now env (S (clock_reads w)) - eight_hours)); lia.
    + intros [= <- <-]. exists t1. splits; tally. discriminate.
Qed.
End Effects.

(** ** Strings and the reports *)

Lemma str_app_nil_r (s : string) : s ++ "" = s.
Proof. induction s as [|c s IH]; simpl; congruence. Qed.

Lemma str_app_assoc (a b c : string) : (a ++ b) ++ c = a ++ b ++ c.
Proof. induction a as [|x a IH]; simpl; congruence. Qed.

(** Right-nest every concatenation of the goal. *)
Ltac str_norm :=
  unfold str_list; repeat first [rewrite str_app_assoc | progress cbn [append]].

Lemma contains_middle (a s b : string) : contains (a ++ s ++ b) s.
Proof. now exists a, b. Qed.

Lemma contains_app_l (p s needle : string) :
  contains s needle -> contains (p ++ s) needle.
Proof.
  intros (a & b & ->). exists (p ++ a), b. now rewrite str_app_assoc.
Qed.

Lemma contains_trans (s m needle : string) :
  contains s m -> contains m needle -> contains s needle.
Proof.
  intros (a & b & ->) (c & d & ->). exists (a ++ c), (d ++ b).
  now rewrite !str_app_assoc.
Qed.

Lemma concat_all_app (l1 l2 : list string) :
  concat_all (l1 ++ l2) = concat_all l1 ++ concat_all l2.
Proof.
  induction l1 as [|x l1 IH]; simpl; [reflexivity|].
  now rewrite IH, str_app_assoc.
Qed.

Lemma concat_all_In (l : list string) s : In s l -> contains (concat_all l) s.
Proof.
  intros Hi. apply in_split in Hi. destruct Hi as (l1 & l2 & ->).
  rewrite concat_all_app. simpl. apply contains_middle.
Qed.

Lemma list_eqb_eq (a : list Z) : forall b, list_eqb a b = true <-> a = b.
Proof.
  induction a as [|x a IH]; intros [|y b]; simpl; try easy.
  rewrite andb_true_iff, Z.eqb_eq, IH. split.
  - now intros [-> ->].
  - now intros [= -> ->].
Qed.

Section AlertFacts.
Variable intent : Dict string (list Z).

Lemma alert_step_acc e o kv :
  alert_step intent (e, o) kv = (e || flagged intent kv, o ++ finding intent kv).
Proof.
  unfold flagged, finding, alert_step. destruct kv as [prefix path].
  destruct (PyDict.get intent prefix) as [declared|]; simpl.
  - destruct (list_eqb declared path); simpl.
    + now rewrite orb_false_r, str_app_nil_r.
    + now rewrite orb_true_r.
  - now rewrite orb_true_r.
Qed.

Lemma alert_loop_acc l : forall e o,
  fold_left (alert_step intent) l (e, o)
  = (e || existsb (flagged intent) l, o ++ concat_all (map (finding intent) l)).
Proof.
  induction l as [|kv l IH]; intros e o; cbn [fold_left existsb map concat_all fold_right].
  - now rewrite orb_false_r, str_app_nil_r.
  - rewrite alert_step_acc, IH. now rewrite orb_assoc, str_app_assoc.
Qed.

(** The alert is the verdict followed by the findings in view order. *)
Lemma alert_view_eq view :
  alert_view view intent
  = if existsb (flagged intent) (PyDict.items (contents view))
    then "[CRITICAL] " ++ concat_all (map (finding intent) (PyDict.items (contents view)))
    else "[OK] " ++ concat_all (map (finding intent) (PyDict.items (contents view)))
         ++ "No alerts!".
Proof.
  unfold alert_view. rewrite alert_loop_acc. simpl.
  destruct (existsb _ _); reflexivity.
Qed.

Lemma alert_flagged view kv :
  In kv (PyDict.items (contents view)) -> flagged intent kv = true ->
  startswith "[CRITICAL]" (alert_view view intent) = true
  /\ contains (alert_view view intent) (finding intent kv).
Proof.
  intros Hi Hf. rewrite alert_view_eq.
  assert (E : existsb (flagged intent) (PyDict.items (contents view)) = true)
    by (apply existsb_exists; eauto).
  rewrite E. split; [reflexivity|].
  apply contains_app_l, concat_all_In. now apply in_map.
Qed.

Lemma matching_clean kv :
  PyDict.get intent (fst kv) = Some (snd kv) ->
  flagged intent kv = false /\ finding intent kv = "".
Proof.
  destruct kv as [prefix path]. unfold flagged, finding, alert_step. simpl.
  intros ->. assert (E : list_eqb path path = true) by now apply list_eqb_eq.
  rewrite E. now split.
Qed.

Lemma alert_all_match view :
  Forall (fun kv => PyDict.get intent (fst kv) = Some (snd kv))
         (PyDict.items (contents view)) ->
  alert_view view intent = "[OK] No alerts!".
Proof.
  intros Hall. rewrite alert_view_eq.
  induction Hall as [|kv l Hkv Hall IH]; simpl; [reflexivity|].
  destruct (matching_clean _ Hkv) as [-> ->]. simpl. exact IH.
Qed.
End AlertFacts.

Lemma verbose_loop l : forall o,
  fold_left (fun output kv => output ++ verbose_line kv) l o
  = o ++ concat_all (map verbose_line l).
Proof.
  induction l as [|kv l IH]; intros o; cbn [fold_left map concat_all fold_right].
  - now rewrite str_app_nil_r.
  - now rewrite IH, str_app_assoc.
Qed.

Lemma get_path_each path :
  _get_path path = join ", " (map (fun n => _get_path [n]) path).
Proof. unfold _get_path. f_equal. Qed.

(** ** The alert report *)

(** C2.  The comparison of [alert_view] is equality of lists, order
    included.  For a prefix declared as [[100, 200]]: a view that shows it
    with [[200, 100]] yields a report that begins with [[CRITICAL]] and
    holds the finding for that prefix; an entry [[100, 200]] leaves the
    state of the loop as it was (no finding, flag untouched), and the view
    made of that entry alone reports [[OK] No alerts!]. *)
Theorem alert_order_sensitive (view : View) (intent : Dict string (list Z)) (prefix : string) :
  PyDict.get intent prefix = Some [100; 200] ->
  (In (prefix, [200; 100]) (PyDict.items (contents view)) ->
     startswith "[CRITICAL]" (alert_view view intent) = true
     /\ contains (alert_view view intent)
          ("Prefix " ++ prefix ++ " intent [100, 200] does not match reality [200, 100]  "))
  /\ (forall st, alert_step intent st (prefix, [100; 200]) = st)
  /\ (forall ts, alert_view {| timestamp := ts; contents := [(prefix, [100; 200])] |} intent
                 = "[OK] No alerts!").
Proof.
  intros Hg. splits.
  - intros Hi.
    assert (Hf : flagged intent (prefix, [200; 100]) = true)
      by (unfold flagged, alert_step; now rewrite Hg).
    destruct (alert_flagged intent view _ Hi Hf) as [Hc Hm]. split; [exact Hc|].
    unfold finding, alert_step in Hm. rewrite Hg in Hm. exact Hm.
  - intros [e o]. unfold alert_step. now rewrite Hg.
  - intros ts. apply alert_all_match. simpl. constructor; [exact Hg|constructor].
Qed.

Lemma alert_order_sensitive_witness :
  PyDict.get [("1.2.3.0/24", [100; 200])] "1.2.3.0/24" = Some [100; 200]
  /\ startswith "[CRITICAL]"
       (alert_view {| timestamp := 0; contents := [("1.2.3.0/24", [200; 100])] |}
                   [("1.2.3.0/24", [100; 200])]) = true
  /\ alert_view {| timestamp := 0; contents := [("1.2.3.0/24", [100; 200])] |}
                [("1.2.3.0/24", [100; 200])] = "[OK] No alerts!".
Proof.
  destruct (@alert_order_sensitive
              {| timestamp := 0; contents := [("1.2.3.0/24", [200; 100])] |}
              [("1.2.3.0/24", [100; 200])] "1.2.3.0/24" eq_refl)
    as (Hbad & _ & Hok).
  splits.
  - reflexivity.
  - apply Hbad. simpl. left. reflexivity.
  - apply Hok.
Defined.

(** C6.  When every entry of the view has its list declared in the intent,
    equal and in the same order, the alert is exactly [[OK] No alerts!];
    when some entry differs from its declared list, the alert begins with
    [[CRITICAL]] and holds the text of both the declared and the observed
    list. *)
Theorem alert_ok_or_critical (view : View) (intent : Dict string (list Z)) :
  (Forall (fun kv => PyDict.get intent (fst kv) = Some (snd kv))
          (PyDict.items (contents view)) ->
   alert_view view intent = "[OK] No alerts!")
  /\ (forall prefix path declared,
        In (prefix, path) (PyDict.items (contents view)) ->
        PyDict.get intent prefix = Some declared ->
        declared <> path ->
        startswith "[CRITICAL]" (alert_view view intent) = true
        /\ contains (alert_view view intent) (str_list declared)
        /\ contains (alert_view view intent) (str_list path)).
Proof.
  split; [apply alert_all_match|].
  intros prefix path declared Hi Hg Hne.
  assert (Hb : list_eqb declared path = false).
  { destruct (list_eqb declared path) eqn:E; [|reflexivity].
    apply list_eqb_eq in E. contradiction. }
  assert (Hf : flagged intent (prefix, path) = true)
    by (unfold flagged, alert_step; now rewrite Hg, Hb).
  destruct (alert_flagged intent view _ Hi Hf) as [Hc Hm].
  unfold finding, alert_step in Hm. rewrite Hg, Hb in Hm. simpl in Hm.
  splits; [exact Hc| |]; (eapply contains_trans; [exact Hm|]).
  - exists ("Prefix " ++ prefix ++ " intent "),
           (" does not match reality " ++ str_list path ++ "  ").
    str_norm. reflexivity.
  - exists ("Prefix " ++ prefix ++ " intent " ++ str_list declared
            ++ " does not match reality "), "  ".
    str_norm. reflexivity.
Qed.

Lemma alert_ok_or_critical_witness :
  alert_view (sample_view 0) [("1.2.3.0/24", [3257])] = "[OK] No alerts!"
  /\ startswith "[CRITICAL]"
       (alert_view {| timestamp := 0; contents := [("1.2.3.0/24", [6939])] |}
                   [("1.2.3.0/24", [3257])]) = true
  /\ contains (alert_view {| timestamp := 0; contents := [("1.2.3.0/24", [6939])] |}
                          [("1.2.3.0/24", [3257])]) "[3257]"
  /\ contains (alert_view {| timestamp := 0; contents := [("1.2.3.0/24", [6939])] |}
                          [("1.2.3.0/24", [3257])]) "[6939]".
Proof.
  split.
  - apply (alert_ok_or_critical (sample_view 0) [("1.2.3.0/24", [3257])]).
    simpl. constructor; [reflexivity|constructor].
  - apply (proj2 (alert_ok_or_critical
                    {| timestamp := 0; contents := [("1.2.3.0/24", [6939])] |}
                    [("1.2.3.0/24", [3257])]) "1.2.3.0/24" [6939] [3257]).
    + simpl. left. reflexivity.
    + reflexivity.
    + discriminate.
Defined.

(** C7.  A prefix of the view that the intent does not declare makes the
    alert begin with [[CRITICAL]] and adds the finding
    [Prefix <prefix> not found in intent file! ], whatever its list of AS
    numbers is (the list [path] is arbitrary, the empty one included). *)
Theorem alert_undeclared_prefix (view : View) (intent : Dict string (list Z))
  (prefix : string) (path : list Z) :
  In (prefix, path) (PyDict.items (contents view)) ->
  PyDict.get intent prefix = None ->
  startswith "[CRITICAL]" (alert_view view intent) = true
  /\ contains (alert_view view intent)
       ("Prefix " ++ prefix ++ " not found in intent file! ").
Proof.
  intros Hi Hg.
  assert (Hf : flagged intent (prefix, path) = true)
    by (unfold flagged, alert_step; now rewrite Hg).
  destruct (alert_flagged intent view _ Hi Hf) as [Hc Hm]. split; [exact Hc|].
  unfold finding, alert_step in Hm. rewrite Hg in Hm. exact Hm.
Qed.

Lemma alert_undeclared_prefix_witness :
  startswith "[CRITICAL]"
    (alert_view {| timestamp := 0; contents := [("9.9.9.0/24", [])] |}
                [("1.2.3.0/24", [3257])]) = true
  /\ contains (alert_view {| timestamp := 0; contents := [("9.9.9.0/24", [])] |}
                          [("1.2.3.0/24", [3257])])
       "Prefix 9.9.9.0/24 not found in intent file! ".
Proof.
  apply (@alert_undeclared_prefix
           {| timestamp := 0; contents := [("9.9.9.0/24", [])] |}
           [("1.2.3.0/24", [3257])] "9.9.9.0/24" []).
  - simpl. left. reflexivity.
  - reflexivity.
Defined.

Lemma alert_loop_agree (intent intent' : Dict string (list Z)) l :
  (forall kv, In kv l -> PyDict.get intent' (fst kv) = PyDict.get intent (fst kv)) ->
  forall st, fold_left (alert_step intent') l st = fold_left (alert_step intent) l st.
Proof.
  induction l as [|[k v] l IH]; intros Hsame st; cbn [fold_left]; [reflexivity|].
  rewrite IH by (intros kv Hkv; apply Hsame; now right).
  f_equal. destruct st as [e o]. unfold alert_step.
  pose proof (Hsame (k, v) (or_introl eq_refl)) as E. cbn [fst] in E.
  now rewrite E.
Qed.

(** C10.  The alert looks only at the prefixes of the view: two intents
    that agree on the keys of the view give the same alert; declaring one
    more prefix that the view does not hold changes nothing; so a view
    whose entries all match reports [[OK] No alerts!] even though the
    intent declares a prefix that has vanished from the view. *)
Theorem alert_ignores_absent_prefixes (view : View) (intent : Dict string (list Z)) :
  (forall intent',
     (forall prefix, In prefix (PyDict.keys (contents view)) ->
                     PyDict.get intent' prefix = PyDict.get intent prefix) ->
     alert_view view intent' = alert_view view intent)
  /\ (forall prefix declared,
        ~ In prefix (PyDict.keys (contents view)) ->
        alert_view view (PyDict.set intent prefix declared) = alert_view view intent)
  /\ (forall prefix declared,
        PyDict.get intent prefix = Some declared ->
        ~ In prefix (PyDict.keys (contents view)) ->
        Forall (fun kv => PyDict.get intent (fst kv) = Some (snd kv))
               (PyDict.items (contents view)) ->
        alert_view view intent = "[OK] No alerts!").
Proof.
  assert (Hagree : forall intent',
     (forall prefix, In prefix (PyDict.keys (contents view)) ->
                     PyDict.get intent' prefix = PyDict.get intent prefix) ->
     alert_view view intent' = alert_view view intent).
  { intros intent' Hsame. unfold alert_view.
    rewrite (@alert_loop_agree intent intent'); [reflexivity|].
    intros kv Hkv. apply Hsame. unfold PyDict.keys. now apply in_map. }
  splits.
  - exact Hagree.
  - intros prefix declared Hn. apply Hagree. intros p Hp.
    apply get_set_other. intros ->. contradiction.
  - intros prefix declared _ _. apply alert_all_match.
Qed.

Lemma alert_ignores_absent_prefixes_witness :
  ~ In "7.7.7.0/24" (PyDict.keys (contents (sample_view 0)))
  /\ alert_view (sample_view 0)
       (PyDict.set [("1.2.3.0/24", [3257])] "7.7.7.0/24" [6939])
     = alert_view (sample_view 0) [("1.2.3.0/24", [3257])]
  /\ alert_view (sample_view 0) [("1.2.3.0/24", [3257]); ("7.7.7.0/24", [6939])]
     = "[OK] No alerts!".
Proof.
  assert (Hn : ~ In "7.7.7.0/24" (PyDict.keys (contents (sample_view 0))))
    by (simpl; intros [E|[]]; discriminate E).
  splits.
  - exact Hn.
  - apply (proj1 (proj2 (alert_ignores_absent_prefixes
                           (sample_view 0) [("1.2.3.0/24", [3257])]))).
    exact Hn.
  - apply (proj2 (proj2 (alert_ignores_absent_prefixes
                           (sample_view 0)
                           [("1.2.3.0/24", [3257]); ("7.7.7.0/24", [6939])]))
             "7.7.7.0/24" [6939]).
    + reflexivity.
    + exact Hn.
    + simpl. constructor; [reflexivity|constructor].
Defined.

(** ** The verbose report *)

(** C9, as amended.  The verbose report is one line per entry of the view,
    [Prefix <prefix> (<alias>) is accessible via next hop AS <list>]; in
    the list an AS number without alias reads [<n> (UNKNOWN AS)]; between
    the parentheses stands the alias of the prefix when it has one and the
    text [None] when it has none. *)
Theorem verbose_view_lines (view : View) :
  verbose_view view
  = concat_all
      (map (fun kv : string * list Z =>
              "Prefix " ++ fst kv ++ " ("
              ++ str_opt (PyDict.get PREFIX_TRANSLATE (fst kv))
              ++ ") is accessible via next hop AS "
              ++ join ", " (map (fun n => _get_path [n]) (snd kv)) ++ nl)
           (PyDict.items (contents view)))
  /\ (forall n, PyDict.get PEER_TRANSLATE n = None ->
                _get_path [n] = str_int n ++ " (UNKNOWN AS)")
  /\ (forall prefix name, PyDict.get PREFIX_TRANSLATE prefix = Some name ->
                          str_opt (PyDict.get PREFIX_TRANSLATE prefix) = name)
  /\ (forall prefix, PyDict.get PREFIX_TRANSLATE prefix = None ->
                     str_opt (PyDict.get PREFIX_TRANSLATE prefix) = "None").
Proof.
  splits.
  - unfold verbose_view. rewrite verbose_loop. cbn [append]. f_equal.
    apply map_ext. intros [prefix path]. unfold verbose_line.
    now rewrite get_path_each.
  - intros n Hn. unfold _get_path. cbn [map join]. now rewrite Hn.
  - now intros prefix name ->.
  - now intros prefix ->.
Qed.

Lemma verbose_view_lines_witness :
  PyDict.get PEER_TRANSLATE 1299 = None
  /\ _get_path [1299] = "1299 (UNKNOWN AS)"
  /\ str_opt (PyDict.get PREFIX_TRANSLATE "1.2.3.0/24") = "MY_SITE"
  /\ str_opt (PyDict.get PREFIX_TRANSLATE "9.9.9.0/24") = "None".
Proof.
  destruct (verbose_view_lines (sample_view 0)) as (_ & Has & Hyes & Hno).
  splits.
  - reflexivity.
  - apply (Has 1299). reflexivity.
  - apply (Hyes "1.2.3.0/24" "MY_SITE"). reflexivity.
  - apply (Hno "9.9.9.0/24"). reflexivity.
Defined.

(** C9 as stated fails: for a prefix without alias the line shows [(None)]
    where the specification shows nothing. *)
Lemma verbose_prints_None :
  PyDict.get PREFIX_TRANSLATE "9.9.9.0/24" = None
  /\ verbose_view {| timestamp := 0; contents := [("9.9.9.0/24", [1299])] |}
     = "Prefix 9.9.9.0/24 (None) is accessible via next hop AS 1299 (UNKNOWN AS)" ++ nl
  /\ verbose_view_spec {| timestamp := 0; contents := [("9.9.9.0/24", [1299])] |}
     = "Prefix 9.9.9.0/24 is accessible via next hop AS 1299 (UNKNOWN AS)" ++ nl
  /\ verbose_view {| timestamp := 0; contents := [("9.9.9.0/24", [1299])] |}
     <> verbose_view_spec {| timestamp := 0; contents := [("9.9.9.0/24", [1299])] |}.
Proof.
  splits; try reflexivity. vm_compute. discriminate.
Qed.

(** ** The fetch and the cache *)

(** Under sustained refusal the loop runs its counter down. *)
Lemma connect_loop_locked env self n : forall w,
  (forall k, (k < n)%nat ->
     ConnectHandler env (hostname self) (username self) (connects w + k)
     = NetmikoAuthenticationException) ->
  connect_loop env self n w
  = (Ok None,
     {| log_file := log_file w; connects := connects w + n;
        clock_reads := clock_reads w;
        trace := (trace w ++ List.concat (repeat [EvConnect; EvSleep 3] n))%list |}).
Proof.
  induction n as [|n IH]; intros w Hauth.
  - cbn [connect_loop repeat List.concat]. unfold ret.
    rewrite Nat.add_0_r, app_nil_r. now destruct w.
  - cbn [connect_loop]. rewrite bind_eq. unfold connect at 1.
    pose proof (Hauth 0%nat ltac:(lia)) as H0. rewrite Nat.add_0_r in H0.
    rewrite H0, bind_eq. unfold sleep, emit at 1.
    rewrite IH.
    + cbn [log_file connects clock_reads trace repeat List.concat app].
      rewrite <- !app_assoc. replace (S (connects w) + n)%nat with (connects w + S n)%nat by lia. reflexivity.
    + intros k Hk. cbn [connects].
      replace (S (connects w) + k)%nat with (connects w + S k)%nat by lia.
      apply Hauth. lia.
Qed.

(** C4.  When the route server refuses the five logins of a fetch, the
    fetch calls [ConnectHandler] exactly five times, sleeps 3 seconds after
    each refusal (so between any two attempts), raises the [RuntimeError]
    of the exhausted retries and leaves the log file alone. *)
Theorem fetch_retries_five_times (env : Env) (self : RouteView) (w : World) :
  (forall k, (k < 5)%nat ->
     ConnectHandler env (hostname self) (username self) (connects w + k)
     = NetmikoAuthenticationException) ->
  exists w',
    _view_from_route_server env self w
    = (Raise (RuntimeError "Error logging into route-views after 5 attempts"), w')
    /\ trace w'
       = (trace w
          ++ [EvFetch; EvConnect; EvSleep 3; EvConnect; EvSleep 3; EvConnect;
              EvSleep 3; EvConnect; EvSleep 3; EvConnect; EvSleep 3])%list
    /\ count EvConnect (trace w') = (count EvConnect (trace w) + 5)%nat
    /\ connects w' = (connects w + 5)%nat
    /\ log_file w' = log_file w.
Proof.
  intros Hauth. unfold _view_from_route_server.
  rewrite bind_eq. unfold emit at 1. rewrite bind_eq.
  rewrite connect_loop_locked by exact Hauth.
  unfold raise. eexists. split; [reflexivity|].
  cbn [trace connects log_file repeat List.concat app]. rewrite <- !app_assoc.
  splits; tally.
Qed.

Lemma fetch_retries_five_times_witness :
  exists w',
    _view_from_route_server locked_env (sample_self false) (start None)
    = (Raise (RuntimeError "Error logging into route-views after 5 attempts"), w')
    /\ trace w'
       = [EvFetch; EvConnect; EvSleep 3; EvConnect; EvSleep 3; EvConnect;
          EvSleep 3; EvConnect; EvSleep 3; EvConnect; EvSleep 3]
    /\ count EvConnect (trace w') = 5%nat
    /\ connects w' = 5%nat
    /\ log_file w' = None.
Proof.
  apply (@fetch_retries_five_times locked_env (sample_self false) (start None)).
  intros k _. reflexivity.
Defined.

(** C5.  A fetch that raises, whatever the exception (retries exhausted,
    another failure of the session, of the command or of the parser, a
    token that is no number), writes nothing: the log file is what it was
    and the trace has no new append. *)
Theorem failed_fetch_keeps_store (env : Env) (self : RouteView) (w w' : World) (e : exn) :
  _view_from_route_server env self w = (Raise e, w') ->
  log_file w' = log_file w
  /\ count EvAppend (trace w') = count EvAppend (trace w).
Proof.
  intros Hr. apply fetch_effect in Hr.
  destruct Hr as (t & Ht & _ & _ & Ha & Hlog). split; [exact Hlog|].
  rewrite Ht. tally.
Qed.

Lemma failed_fetch_keeps_store_witness :
  log_file (snd (_view_from_route_server garbled_env (sample_self false)
                   (start (Some [sample_view 0]))))
  = Some [sample_view 0]
  /\ count EvAppend
       (trace (snd (_view_from_route_server garbled_env (sample_self false)
                      (start (Some [sample_view 0])))))
     = 0%nat.
Proof.
  apply (@failed_fetch_keeps_store garbled_env (sample_self false)
           (start (Some [sample_view 0])) _ (ParseError "no template matched")).
  reflexivity.
Defined.

(** C1.  The snapshot that a successful fetch appends to the log file is
    built from the records [parsed] that the parser returned for the
    stripped answer of the route server, and: every list of AS numbers is
    ascending and without duplicate; its keys are exactly the networks of
    the records; a network none of whose records shows the adjacency to the
    AS number has the empty list; the keys are in ascending order, each
    once. *)
Theorem fetch_snapshot_canonical (env : Env) (self : RouteView) (w w' : World) :
  _view_from_route_server env self w = (Ok tt, w') ->
  exists (v : View) (parsed : list Item),
    log_file w' = Some (lines_of (log_file w) ++ [v])%list
    /\ (exists k send_command raw,
          ConnectHandler env (hostname self) (username self) k = Connected send_command
          /\ send_command ("show ip bgp regexp _" ++ asn self) = Ok raw
          /\ parse_output env (strip_markers raw) = Ok parsed)
    /\ (forall prefix path,
          In (prefix, path) (PyDict.items (contents v)) ->
          StronglySorted Z.le path /\ NoDup path)
    /\ (forall prefix,
          In prefix (PyDict.keys (contents v)) <-> In prefix (map network parsed))
    /\ (forall prefix,
          In prefix (map network parsed) ->
          (forall item, In item parsed -> network item = prefix ->
                        re_search (asn self) (as_path item) = None) ->
          PyDict.get (contents v) prefix = Some [])
    /\ StronglySorted str_le (PyDict.keys (contents v))
    /\ NoDup (PyDict.keys (contents v)).
Proof.
  intros Hr. apply fetch_effect in Hr.
  destruct Hr as (t & _ & _ & _ & _ & _ & v & Hlog & _ & Hv).
  destruct Hv as (k & send_command & raw & parsed & Hc & Hs & Hp & Hn).
  exists v, parsed. split; [exact Hlog|]. split; [now exists k, send_command, raw|].
  exact (normalize_ok _ _ Hn).
Qed.

Lemma fetch_snapshot_canonical_witness :
  exists (v : View) (parsed : list Item),
    log_file (snd (_view_from_route_server sample_env (sample_self false) (start None)))
    = Some ([] ++ [v])%list
    /\ (exists k send_command raw,
          ConnectHandler sample_env "route-views.routeviews.org" "rviews" k
          = Connected send_command
          /\ send_command "show ip bgp regexp _65000" = Ok raw
          /\ parse_output sample_env (strip_markers raw) = Ok parsed)
    /\ (forall prefix path,
          In (prefix, path) (PyDict.items (contents v)) ->
          StronglySorted Z.le path /\ NoDup path)
    /\ (forall prefix,
          In prefix (PyDict.keys (contents v)) <-> In prefix (map network parsed))
    /\ (forall prefix,
          In prefix (map network parsed) ->
          (forall item, In item parsed -> network item = prefix ->
                        re_search "65000" (as_path item) = None) ->
          PyDict.get (contents v) prefix = Some [])
    /\ StronglySorted str_le (PyDict.keys (contents v))
    /\ NoDup (PyDict.keys (contents v)).
Proof.
  apply (@fetch_snapshot_canonical sample_env (sample_self false) (start None)).
  reflexivity.
Defined.

(** C3.  One invocation of [_get_view] fetches (at least once) exactly when
    the log file holds no snapshot, or the refresh flag is set, or the
    latest snapshot is older than 8 hours at the first reading of the
    clock; a snapshot aged 8 hours to the microsecond, without the flag, is
    fresh and nothing is fetched. *)
Theorem refresh_iff_stale (env : Env) (self : RouteView) (f : option (list View)) :
  let t := trace (snd (_get_view env self (start f))) in
  ((1 <= count EvFetch t)%nat <->
     stored f = None
     \/ refresh self = true
     \/ exists v, stored f = Some v /\ datetime_now env 0 - timestamp v > eight_hours)
  /\ (forall v, stored f = Some v -> refresh self = false ->
                datetime_now env 0 - timestamp v = eight_hours ->
                count EvFetch t = 0%nat).
Proof.
  intros t. subst t.
  destruct (_get_view env self (start f)) as [r w'] eqn:E.
  apply get_view_effect in E. cbn [snd]. cbn [start trace log_file clock_reads app] in E.
  destruct E as (t & -> & _ & _ & Hsome & Hnone).
  destruct (stored f) as [v|] eqn:Hs.
  - destruct (Hsome v eq_refl) as [_ Hf]. clear Hsome Hnone. split.
    + rewrite Hf. split.
      * intros Hge. right.
        destruct (refresh self); [now left|]. right. exists v. split; [reflexivity|].
        cbn [orb] in Hge.
        destruct (Z.ltb_spec (timestamp v) (datetime_now env 0 - eight_hours)); lia.
      * intros [Habs|[->|(v' & [= <-] & Hage)]]; [discriminate|reflexivity|].
        destruct (Z.ltb_spec (timestamp v) (datetime_now env 0 - eight_hours));
          [|lia].
        now rewrite orb_true_r.
    + intros v' [= <-] Hno Hage. rewrite Hf, Hno. cbn [orb].
      destruct (Z.ltb_spec (timestamp v) (datetime_now env 0 - eight_hours)); lia.
  - destruct (Hnone eq_refl) as [Hge _]. split.
    + split; [now left | intros _; exact Hge].
    + discriminate.
Qed.

Lemma refresh_iff_stale_witness :
  stored (Some [sample_view 0]) = Some (sample_view 0)
  /\ refresh (sample_self false) = false
  /\ 28800000000 - timestamp (sample_view 0) = eight_hours
  /\ count EvFetch
       (trace (snd (_get_view
eight_oclock_env (sample_self false) (start (Some [sample_view 0])))))
     = 0%nat.
Proof.
  split; [reflexivity|]. split; [reflexivity|]. split; [reflexivity|].
  apply (proj2 (refresh_iff_stale
eight_oclock_env
                  (sample_self false) (Some [sample_view 0])) (sample_view 0));
    reflexivity.
Defined.

(** C8 as stated fails: without a log file and with the refresh flag, one
    invocation fetches twice, appends twice and reads the file twice. *)
Lemma invocation_fetches_twice :
  let t := trace (snd (_get_view sample_env (sample_self true) (start None))) in
  t = [EvFetch; EvConnect; EvCommand; EvParse; EvAppend; EvRead;
       EvFetch; EvConnect; EvCommand; EvParse; EvAppend; EvRead]
  /\ ~ (count EvFetch t <= 1)%nat
  /\ ~ (count EvRead t <= 1)%nat
  /\ ~ (count EvAppend t <= 1)%nat.
Proof.
  vm_compute. splits; [reflexivity|lia|lia|lia].
Qed.

(** C8, as amended.  In one invocation every append belongs to a fetch and
    the log file is read at most three times.  When the log file already
    holds a snapshot there is at most one fetch, at most one append and at
    most two reads (the latest snapshot is read before the refresh decision
    and after it).  When it holds none, the flag is not set and the clock
    advances by at most 8 hours between its first two readings, there is
    at most one fetch and one append. *)
Theorem invocation_effect_bounds (env : Env) (self : RouteView) (f : option (list View)) :
  let t := trace (snd (_get_view env self (start f))) in
  (count EvAppend t <= count EvFetch t)%nat
  /\ (count EvRead t <= 3)%nat
  /\ (stored f <> None ->
        (count EvFetch t <= 1)%nat /\ (count EvAppend t <= 1)%nat
        /\ (count EvRead t <= 2)%nat)
  /\ (stored f = None -> refresh self = false ->
      datetime_now env 1 - datetime_now env 0 <= eight_hours ->
        (count EvFetch t <= 1)%nat /\ (count EvAppend t <= 1)%nat).
Proof.
  intros t. subst t.
  destruct (_get_view env self (start f)) as [r w'] eqn:E.
  apply get_view_effect in E. cbn [snd]. cbn [start trace log_file clock_reads app] in E.
  destruct E as (t & -> & Ha & Hr & Hsome & Hnone).
  splits; try assumption.
  - destruct (stored f) as [v|]; [intros _|congruence].
    destruct (Hsome v eq_refl) as [Hr2 Hf].
    destruct (refresh self || (timestamp v <? datetime_now env 0 - eight_hours)%Z); lia.
  - intros Hs Hno Hclock. destruct (Hnone Hs) as [_ Hone].
    specialize (Hone Hno Hclock). lia.
Qed.

Lemma invocation_effect_bounds_witness :
  stored (Some [sample_view 0]) <> None
  /\ (count EvFetch (trace (snd (_get_view sample_env (sample_self true)
                                   (start (Some [sample_view 0]))))) <= 1)%nat
  /\ (count EvRead (trace (snd (_get_view sample_env (sample_self true)
                                  (start (Some [sample_view 0]))))) <= 2)%nat
  /\ (count EvFetch (trace (snd (_get_view sample_env (sample_self false)
                                   (start None)))) <= 1)%nat.
Proof.
  assert (Hs : stored (Some [sample_view 0]) <> None) by discriminate.
  destruct (invocation_effect_bounds sample_env (sample_self true)
              (Some [sample_view 0])) as (_ & _ & Hsome & _).
  destruct (invocation_effect_bounds sample_env (sample_self false) None)
    as (_ & _ & _ & Hnone).
  splits.
  - exact Hs.
  - apply (Hsome Hs).
  - apply (Hsome Hs).
  - apply Hnone; [reflexivity | reflexivity | vm_compute; discriminate].
Defined.

(** * Further properties of the program *)

(** ** The pattern, [int] and the markers *)










Lemma int_digits_nonneg s : forall acc b n,
  0 <= acc -> int_digits acc b s = Some n -> 0 <= n.
Proof.
  induction s as [|c s IH]; intros acc b n Hacc; cbn [int_digits].
  - destruct b; [intros [= <-]; exact Hacc|discriminate].
  - destruct (is_digit c) eqn:D.
    + apply IH. unfold is_digit in D. apply andb_true_iff in D.
      destruct D as [D _]. apply N.leb_le in D. lia.
    + destruct (Ascii.eqb c "_" && b); [apply IH; exact Hacc|discriminate].
Qed.

(** Strictly ascending is ascending without duplicate. *)
Lemma sorted_nodup_strict (l : list Z) :
  StronglySorted Z.le l -> NoDup l -> StronglySorted Z.lt l.
Proof.
  induction 1 as [|x l Hs IH Hf]; intros Hn; constructor.
  - apply IH. now inversion Hn.
  - inversion Hn as [|? ? Hx _]; subst. rewrite Forall_forall in *.
    intros y Hy. specialize (Hf y Hy).
    assert (x <> y) by (intros ->; contradiction). lia.
Qed.



(** ** Normalisation *)

Section MoreNormalizeFacts.
Variable asn : string.
Implicit Types (data : Dict string (list Z)) (item : Item).

Lemma get_map_values (f : list Z -> list Z) data p :
  PyDict.get (map (fun kv : string * list Z => (fst kv, f (snd kv))) data) p
  = option_map f (PyDict.get data p).
Proof.
  induction data as [|[k v] r IH]; simpl; [reflexivity|].
  destruct (String.eqb p k); [reflexivity|exact IH].
Qed.

Lemma normalize_shape parsed data :
  normalize asn parsed = Ok data ->
  exists data1,
    for_each (add_path asn) parsed
      (fold_left (fun d prefix => PyDict.set d prefix [])
                 (py_sort String.leb (map network parsed)) []) = Ok data1
    /\ NoDup (PyDict.keys data1)
    /\ data = map (fun kv : string * list Z => (fst kv, canonical (snd kv))) data1.
Proof.
  unfold normalize.
  destruct (for_each _ _ _) as [data1|] eqn:E; [|discriminate].
  intros [= <-]. exists data1. split; [reflexivity|].
  assert (Hnd : NoDup (PyDict.keys data1)).
  { pose proof (@for_each_add_path_keys _ _ _ _ E) as Hk. rewrite Hk.
    apply fill_keys_NoDup. constructor. }
  split; [exact Hnd|].
  exact (@sort_dedup_fold data1 [] Hnd).
Qed.

(** What the loop over the records adds to the path of one prefix. *)
Lemma for_each_add_path_values p parsed : forall data data' path',
  for_each (add_path asn) parsed data = Ok data' ->
  PyDict.get data' p = Some path' ->
  exists path,
    PyDict.get data p = Some path
    /\ forall n, In n path' <->
         In n path
         \/ exists item, In item parsed /\ network item = p
                         /\ peer_of asn item = Some n.
Proof.
  induction parsed as [|item parsed IH]; intros data data' path'; cbn [for_each].
  - intros [= <-] Hg. exists path'. split; [exact Hg|].
    intros n. split; [now left|]. intros [Hi|(item & [] & _)]. exact Hi.
  - destruct (add_path asn data item) as [d1|] eqn:E; [|discriminate].
    intros Hf Hg. destruct (IH _ _ _ Hf Hg) as (path1 & Hg1 & Hin). clear IH.
    unfold add_path in E. unfold peer_of in *.
    destruct (re_search asn (as_path item)) as [tok|] eqn:R.
    + destruct (PyDict.get data (network item)) as [path0|] eqn:G; [|discriminate].
      destruct (py_int tok) as [n0|] eqn:P; [|discriminate].
      injection E as <-.
      destruct (String.eqb_spec (network item) p) as [Heq|Hne].
      * subst p. rewrite get_set_same in Hg1. injection Hg1 as <-.
        exists path0. split; [exact G|]. intros n. rewrite Hin, in_app_iff. simpl.
        split.
        -- intros [[Hi|[<-|[]]]|(it & Hit & Hnet & Hp)].
           ++ now left.
           ++ right. exists item. rewrite R. repeat split; simpl; auto.
           ++ right. exists it. repeat split; simpl; auto.
        -- intros [Hi|(it & [<-|Hit] & Hnet & Hp)].
           ++ auto.
           ++ rewrite R, P in Hp. injection Hp as <-. auto.
           ++ right. exists it. repeat split; simpl; auto.
      * rewrite get_set_other in Hg1 by exact Hne.
        exists path1. split; [exact Hg1|]. intros n. rewrite Hin. split.
        -- intros [Hi|(it & Hit & Hnet & Hp)]; [now left|].
           right. exists it. repeat split; simpl; auto.
        -- intros [Hi|(it & [<-|Hit] & Hnet & Hp)]; [now left|contradiction|].
           right. exists it. repeat split; simpl; auto.
    + injection E as <-. exists path1. split; [exact Hg1|].
      intros n. rewrite Hin. split.
      * intros [Hi|(it & Hit & Hnet & Hp)]; [now left|]. right. exists it. repeat split; simpl; auto.
      * intros [Hi|(it & [<-|Hit] & Hnet & Hp)]; [now left| |].
        -- rewrite R in Hp. discriminate.
        -- right. exists it. repeat split; simpl; auto.
Qed.

Lemma initial_paths_empty (prefix_list : list string) p path :
  PyDict.get (fold_left (fun d prefix => PyDict.set d prefix (@nil Z)) prefix_list []) p
  = Some path -> path = [].
Proof.
  intros G. apply get_In in G.
  pose proof (@fill_values string (list Z) _ [] prefix_list [] (Forall_nil _)) as Hv.
  rewrite Forall_forall in Hv. exact (Hv _ G).
Qed.

Lemma paths_of_normalize parsed data :
  normalize asn parsed = Ok data ->
  forall p path, PyDict.get data p = Some path ->
  forall n, In n path <->
    exists item, In item parsed /\ network item = p /\ peer_of asn item = Some n.
Proof.
  intros Hn p path Hg n.
  destruct (normalize_shape _ Hn) as (data1 & E & Hnd & ->).
  rewrite get_map_values in Hg.
  destruct (PyDict.get data1 p) as [path1|] eqn:G1; [|discriminate].
  injection Hg as <-.
  destruct (for_each_add_path_values p _ _ E G1) as (path0 & G0 & Hin).
  apply initial_paths_empty in G0. subst path0.
  unfold canonical. rewrite (proj2 (proj2 (canonical_path path1)) n), Hin.
  simpl. tauto.
Qed.

End MoreNormalizeFacts.

Section NormalizeOutcome.
Variable asn : string.

Lemma for_each_add_path_outcome parsed : forall data : Dict string (list Z),
  (forall item, In item parsed -> In (network item) (PyDict.keys data)) ->
  match for_each (add_path asn) parsed data with
  | Ok _ =>
      forall item tok, In item parsed ->
        re_search asn (as_path item) = Some tok -> py_int tok <> None
  | Raise e =>
      exists item tok, In item parsed
        /\ re_search asn (as_path item) = Some tok
        /\ py_int tok = None /\ e = ValueError tok
  end.
Proof.
  induction parsed as [|item parsed IH]; intros data Hkeys; cbn [for_each].
  - intros item tok [].
  - destruct (add_path asn data item) as [d1|e] eqn:E.
    + assert (Hk1 : forall it, In it parsed -> In (network it) (PyDict.keys d1)).
      { intros it Hit. rewrite (@add_path_keys _ _ _ _ E). apply Hkeys. now right. }
      specialize (IH d1 Hk1).
      destruct (for_each (add_path asn) parsed d1) as [d2|e2].
      * intros it tok [<-|Hit] R; [|eauto].
        unfold add_path in E. rewrite R in E.
        destruct (PyDict.get data (network item)); [|discriminate].
        destruct (py_int tok); [discriminate|discriminate E].
      * destruct IH as (it & tok & Hit & R & P & ->).
        exists it, tok. repeat split; simpl; auto.
    + unfold add_path in E.
      destruct (re_search asn (as_path item)) as [tok|] eqn:R; [|discriminate].
      destruct (PyDict.get data (network item)) as [path|] eqn:G.
      * destruct (py_int tok) eqn:P; [discriminate|]. injection E as <-.
        exists item, tok. repeat split; simpl; auto.
      * exfalso. apply get_None_iff in G. apply G, Hkeys. now left.
Qed.

Lemma normalize_outcome parsed :
  match normalize asn parsed with
  | Ok _ =>
      forall item tok, In item parsed ->
        re_search asn (as_path item) = Some tok -> py_int tok <> None
  | Raise e =>
      exists item tok, In item parsed
        /\ re_search asn (as_path item) = Some tok
        /\ py_int tok = None /\ e = ValueError tok
  end.
Proof.
  unfold normalize.
  pose proof (@for_each_add_path_outcome parsed
     (fold_left (fun d prefix => PyDict.set d prefix [])
                (py_sort String.leb (map network parsed)) [])) as H.
  destruct (for_each _ _ _); apply H; intros item Hit;
    apply fill_keys_In; right;
    (eapply Permutation_in; [apply py_sort_perm|]); now apply in_map.
Qed.

End NormalizeOutcome.


(** Two lists in strict ascending order with the same elements are equal. *)
Lemma sorted_unique {A} (R : A -> A -> Prop) :
  (forall a b, R a b -> R b a -> a = b) ->
  forall l l' : list A,
    StronglySorted R l -> NoDup l -> StronglySorted R l' -> NoDup l' ->
    (forall x, In x l <-> In x l') -> l = l'.
Proof.
  intros Hanti. induction l as [|x l IH]; intros [|y l'] Hs Hn Hs' Hn' Hiff.
  - reflexivity.
  - exfalso. apply (proj2 (Hiff y)). now left.
  - exfalso. apply (proj1 (Hiff x)). now left.
  - inversion Hs as [|? ? Hsl Hfx]; inversion Hs' as [|? ? Hsl' Hfy];
      inversion Hn as [|? ? Hnx Hnl]; inversion Hn' as [|? ? Hny Hnl']; subst.
    rewrite Forall_forall in Hfx, Hfy.
    assert (x = y).
    { destruct (proj1 (Hiff x) (or_introl eq_refl)) as [E|Hx]; [now symmetry|].
      destruct (proj2 (Hiff y) (or_introl eq_refl)) as [E|Hy]; [assumption|].
      apply Hanti; auto. }
    subst y. f_equal. apply IH; auto.
    intros z. split; intros Hz.
    + destruct (proj1 (Hiff z) (or_intror Hz)) as [<-|]; [contradiction|assumption].
    + destruct (proj2 (Hiff z) (or_intror Hz)) as [<-|]; [contradiction|assumption].
Qed.

Lemma dict_ext {V} (d d' : Dict string V) :
  PyDict.keys d = PyDict.keys d' -> NoDup (PyDict.keys d) ->
  (forall p, PyDict.get d p = PyDict.get d' p) -> d = d'.
Proof.
  revert d'. induction d as [|[k v] d IH]; intros [|[k' v'] d'] Hk Hn Hg;
    try discriminate; [reflexivity|].
  simpl in Hk. injection Hk as <- Hk. inversion Hn as [|? ? Hnk Hnd]; subst.
  pose proof (Hg k) as Hgk. simpl in Hgk. rewrite String.eqb_refl in Hgk.
  injection Hgk as <-. f_equal. apply IH; auto.
  intros p. specialize (Hg p). simpl in Hg.
  destruct (String.eqb_spec p k) as [Heq|Hne]; [|exact Hg]. subst p.
  assert (G : PyDict.get d k = None) by (apply get_None_iff; exact Hnk).
  assert (G' : PyDict.get d' k = None)
    by (apply get_None_iff; rewrite <- Hk; exact Hnk).
  congruence.
Qed.

(** X3.  The snapshot does not depend on the order of the records: a
    permutation of records that normalise gives the same dictionary, keys
    and lists in the same order (the consistent diff that the sort is there
    for). *)
Theorem normalize_order_independent (asn : string) (parsed parsed' : list Item)
  (data : Dict string (list Z)) :
  Permutation parsed parsed' ->
  normalize asn parsed = Ok data ->
  normalize asn parsed' = Ok data.
Proof.
  intros Hperm Hn.
  assert (Hin : forall item, In item parsed <-> In item parsed').
  { intros item. split; apply Permutation_in; [exact Hperm|now symmetry]. }
  pose proof (normalize_outcome asn parsed) as Hout. rewrite Hn in Hout.
  assert (Htotal : exists data', normalize asn parsed' = Ok data').
  { pose proof (normalize_outcome asn parsed') as Hout'.
    destruct (normalize asn parsed') as [data'|e]; [eauto|].
    destruct Hout' as (item & tok & Hit & R & P & _).
    exfalso. exact (Hout item tok (proj2 (Hin item) Hit) R P). }
  destruct Htotal as [data' Hn'].
  rewrite Hn'. f_equal. symmetry.
  destruct (normalize_ok _ _ Hn) as (Hv & Hk & _ & Hs & Hnd).
  destruct (normalize_ok _ _ Hn') as (Hv' & Hk' & _ & Hs' & Hnd').
  assert (Hkeys : PyDict.keys data = PyDict.keys data').
  { apply (sorted_unique (R := str_le)); auto.
    - intros a b. apply String.leb_antisym.
    - intros p. rewrite Hk, Hk', !in_map_iff.
      split; intros (item & E & Hit); exists item; split; auto; now apply Hin. }
  apply dict_ext; [exact Hkeys | exact Hnd |].
  intros p.
  destruct (PyDict.get data p) as [path|] eqn:G;
    destruct (PyDict.get data' p) as [path'|] eqn:G'.
  - f_equal.
    destruct (Hv p path (get_In _ _ G)) as [Hsp Hnp].
    destruct (Hv' p path' (get_In _ _ G')) as [Hsp' Hnp'].
    apply (sorted_unique (R := Z.le)); auto; [intros; lia|].
    intros n.
    rewrite (@paths_of_normalize _ _ _ Hn _ _ G n),
            (@paths_of_normalize _ _ _ Hn' _ _ G' n).
    split; intros (item & Hit & E); exists item; split; auto; now apply Hin.
  - exfalso. apply get_None_iff in G'. apply G'. rewrite <- Hkeys.
    apply get_In in G. change p with (fst (p, path)). now apply in_map.
  - exfalso. apply get_None_iff in G. apply G. rewrite Hkeys.
    apply get_In in G'. change p with (fst (p, path')). now apply in_map.
  - reflexivity.
Qed.

Lemma normalize_order_independent_witness :
  normalize "65000"
    [ {| network := "1.2.3.0/24"; as_path := "6939 65000 i" |};
      {| network := "9.9.9.0/24"; as_path := "3257 1299 65000 i" |};
      {| network := "1.2.3.0/24"; as_path := "3257 65000 i" |} ]
  = Ok [("1.2.3.0/24", [3257; 6939]); ("9.9.9.0/24", [1299])].
Proof.
  apply (@normalize_order_independent "65000"
           [ {| network := "9.9.9.0/24"; as_path := "3257 1299 65000 i" |};
             {| network := "1.2.3.0/24"; as_path := "3257 65000 i" |};
             {| network := "1.2.3.0/24"; as_path := "6939 65000 i" |} ]).
  - apply Permutation_sym, Permutation_cons_app with (l1 := [_; _]) (l2 := []).
    apply Permutation_refl.
  - reflexivity.
Defined.

(** ** Outcomes of the fetch *)

Section FetchOutcomes.
Variable env : Env.
Variable self : RouteView.

(** The loop stops at the first login that is not refused. *)
Lemma connect_loop_settles n : forall j w,
  (j < n)%nat ->
  (forall k, (k < j)%nat ->
     ConnectHandler env (hostname self) (username self) (connects w + k)
     = NetmikoAuthenticationException) ->
  ConnectHandler env (hostname self) (username self) (connects w + j)
  <> NetmikoAuthenticationException ->
  connect_loop env self n w
  = (match ConnectHandler env (hostname self) (username self) (connects w + j) with
     | Connected connection => Ok (Some connection)
     | ConnectError e => Raise e
     | NetmikoAuthenticationException => Ok None
     end,
     {| log_file := log_file w; connects := connects w + S j;
        clock_reads := clock_reads w;
        trace := (trace w ++ refusals j ++ [EvConnect])%list |}).
Proof.
  induction n as [|n IH]; intros j w Hj Hauth Hend; [lia|].
  cbn [connect_loop]. rewrite bind_eq. unfold connect at 1.
  destruct j as [|j].
  - rewrite Nat.add_0_r in *. unfold refusals. cbn [repeat List.concat app].
    replace (connects w + 1)%nat with (S (connects w)) by lia.
    destruct (ConnectHandler env (hostname self) (username self) (connects w));
      [reflexivity|contradiction|reflexivity].
  - pose proof (Hauth 0%nat ltac:(lia)) as H0. rewrite Nat.add_0_r in H0.
    rewrite H0, bind_eq. unfold sleep, emit at 1.
    rewrite (IH j).
    + cbn [log_file connects clock_reads trace].
      replace (S (connects w) + j)%nat with (connects w + S j)%nat by lia.
      replace (S (connects w) + S j)%nat with (connects w + S (S j))%nat by lia.
      unfold refusals. cbn [repeat List.concat app]. rewrite <- !app_assoc.
      reflexivity.
    + lia.
    + intros k Hk. cbn [connects].
      replace (S (connects w) + k)%nat with (connects w + S k)%nat by lia.
      apply Hauth. lia.
    + cbn [connects].
      replace (S (connects w) + j)%nat with (connects w + S j)%nat by lia.
      exact Hend.
Qed.

(** X8.  A login that fails with anything but the authentication
    exception stops the fetch at once: after [j] refused logins ([j] < 5)
    the exception of attempt [j] is raised as it is, without a further
    sleep or attempt, no command is sent and the log file is untouched. *)
Theorem connect_error_not_retried (w : World) (j : nat) (e : exn) :
  (j < 5)%nat ->
  (forall k, (k < j)%nat ->
     ConnectHandler env (hostname self) (username self) (connects w + k)
     = NetmikoAuthenticationException) ->
  ConnectHandler env (hostname self) (username self) (connects w + j)
  = ConnectError e ->
  _view_from_route_server env self w
  = (Raise e,
     {| log_file := log_file w; connects := connects w + S j;
        clock_reads := clock_reads w;
        trace := (trace w ++ EvFetch :: refusals j ++ [EvConnect])%list |}).
Proof.
  intros Hj Hauth He. unfold _view_from_route_server.
  rewrite bind_eq. unfold emit at 1. rewrite bind_eq.
  rewrite (@connect_loop_settles 5 j); cbn [connects log_file clock_reads trace];
    [|exact Hj|exact Hauth|rewrite He; discriminate].
  rewrite He, <- app_assoc. reflexivity.
Qed.

(** X9.  A fetch whose login succeeds within the five attempts, whose
    command and parse succeed and whose records normalise returns: it slept
    once per refused login, sent one command and appended one snapshot,
    stamped with the clock and holding the normalised records. *)
Theorem fetch_succeeds_after_refusals (w : World) (j : nat)
  (connection : string -> result string) (raw : string) (parsed : list Item)
  (data : Dict string (list Z)) :
  (j < 5)%nat ->
  (forall k, (k < j)%nat ->
     ConnectHandler env (hostname self) (username self) (connects w + k)
     = NetmikoAuthenticationException) ->
  ConnectHandler env (hostname self) (username self) (connects w + j)
  = Connected connection ->
  connection ("show ip bgp regexp _" ++ asn self) = Ok raw ->
  parse_output env (strip_markers raw) = Ok parsed ->
  normalize (asn self) parsed = Ok data ->
  _view_from_route_server env self w
  = (Ok tt,
     {| log_file :=
          Some (lines_of (log_file w)
                ++ [{| timestamp := datetime_now env (clock_reads w);
                       contents := data |}])%list;
        connects := connects w + S j;
        clock_reads := S (clock_reads w);
        trace := (trace w ++ EvFetch :: refusals j
                  ++ [EvConnect; EvCommand; EvParse; EvAppend])%list |}).
Proof.
  intros Hj Hauth Hc Hs Hp Hn. unfold _view_from_route_server.
  rewrite bind_eq. unfold emit at 1. rewrite bind_eq.
  rewrite (@connect_loop_settles 5 j); cbn [connects log_file clock_reads trace];
    [|exact Hj|exact Hauth|rewrite Hc; discriminate].
  rewrite Hc. unfold send, parse, now, append_line, lift, emit, bind.
  cbn [connects log_file clock_reads trace]. rewrite Hs, Hp, Hn.
  cbn [connects log_file clock_reads trace]. unfold lines_of.
  rewrite <- !app_assoc. reflexivity.
Qed.
End FetchOutcomes.

Lemma connect_error_not_retried_witness :
  _view_from_route_server dropping_env (sample_self false) (start None)
  = (Raise (TransportError "connection refused"),
     {| log_file := None; connects := 2; clock_reads := 0;
        trace := [EvFetch; EvConnect; EvSleep 3; EvConnect] |}).
Proof.
  apply (@connect_error_not_retried dropping_env (sample_self false)
           (start None) 1%nat (TransportError "connection refused")).
  - lia.
  - intros [|k] Hk; [reflexivity|lia].
  - reflexivity.
Defined.

Lemma fetch_succeeds_after_refusals_witness :
  _view_from_route_server flaky_env (sample_self false) (start (Some [sample_view 0]))
  = (Ok tt,
     {| log_file :=
          Some [sample_view 0;
                {| timestamp := 0;
                   contents := [("1.2.3.0/24", [3257; 6939]); ("5.5.5.0/24", []);
                                ("9.9.9.0/24", [1299])] |}];
        connects := 3; clock_reads := 1;
        trace := [EvFetch; EvConnect; EvSleep 3; EvConnect; EvSleep 3;
                  EvConnect; EvCommand; EvParse; EvAppend] |}).
Proof.
  apply (@fetch_succeeds_after_refusals flaky_env (sample_self false)
           (start (Some [sample_view 0])) 2%nat (fun _ => Ok "raw") "raw"
           [ {| network := "9.9.9.0/24"; as_path := "3257 1299 65000 i" |};
             {| network := "1.2.3.0/24"; as_path := "6939 65000 i" |};
             {| network := "1.2.3.0/24"; as_path := "3257 65000 65000 i" |};
             {| network := "5.5.5.0/24"; as_path := "65000 i" |} ]
           [("1.2.3.0/24", [3257; 6939]); ("5.5.5.0/24", []);
            ("9.9.9.0/24", [1299])]).
  - lia.
  - intros [|[|k]] Hk; [reflexivity|reflexivity|lia].
  - reflexivity.
  - reflexivity.
  - reflexivity.
  - reflexivity.
Defined.

(** ** The log file only grows *)

Lemma appends_only_refl w : appends_only w w.
Proof. exists [], []. rewrite !app_nil_r. splits; auto. Qed.

Lemma appends_only_trans w1 w2 w3 :
  appends_only w1 w2 -> appends_only w2 w3 -> appends_only w1 w3.
Proof.
  intros (n1 & t1 & Hl1 & Ht1 & Hc1 & He1) (n2 & t2 & Hl2 & Ht2 & Hc2 & He2).
  exists (n1 ++ n2)%list, (t1 ++ t2)%list.
  rewrite Hl2, Hl1, Ht2, Ht1, <- !app_assoc, length_app, count_app.
  splits; auto.
Qed.

Lemma keeps_ret {A} (a : A) : keeps (ret a).
Proof. intros w r w' [= <- <-]. apply appends_only_refl. Qed.

Lemma keeps_raise {A} (e : exn) : keeps (@raise A e).
Proof. intros w r w' [= <- <-]. apply appends_only_refl. Qed.

Lemma keeps_lift {A} (x : result A) : keeps (lift x).
Proof. intros w r w' [= <- <-]. apply appends_only_refl. Qed.

Lemma keeps_bind {A B} (m : M A) (k : A -> M B) :
  keeps m -> (forall a, keeps (k a)) -> keeps (bind m k).
Proof.
  intros Hm Hk w r w'. rewrite bind_eq.
  destruct (m w) as [[a|e] w1] eqn:E.
  - intros Hr. eapply appends_only_trans; [exact (Hm _ _ _ E)|exact (Hk _ _ _ _ Hr)].
  - intros [= <- <-]. exact (Hm _ _ _ E).
Qed.

Lemma keeps_emit e : Event_eqb EvAppend e = false -> keeps (emit e).
Proof.
  intros He w r w' [= <- <-]. exists [], [e]. rewrite app_nil_r.
  cbn [log_file trace]. rewrite count_cons, He. splits; auto.
Qed.

Lemma keeps_path_exists : keeps path_exists.
Proof. intros w r w' [= <- <-]. apply appends_only_refl. Qed.

Lemma keeps_readlines : keeps readlines.
Proof.
  intros w r w'. unfold readlines.
  destruct (log_file w) eqn:F.
  - apply keeps_bind; [now apply keeps_emit | intros; apply keeps_ret].
  - intros [= <- <-]. apply appends_only_refl.
Qed.

Lemma keeps_append_line v : keeps (append_line v).
Proof.
  intros w r w' [= <- <-]. exists [v], [EvAppend]. cbn [log_file trace lines_of].
  splits; auto. discriminate.
Qed.

Section Keeps.
Variable env : Env.
Variable self : RouteView.

Lemma keeps_connect host user : keeps (connect env host user).
Proof.
  intros w r w' [= <- <-]. exists [], [EvConnect]. rewrite app_nil_r.
  cbn [log_file trace]. splits; auto.
Qed.

Lemma keeps_now : keeps (now env).
Proof.
  intros w r w' [= <- <-]. exists [], []. rewrite !app_nil_r.
  cbn [log_file trace]. splits; auto.
Qed.

Lemma keeps_connect_loop n : keeps (connect_loop env self n).
Proof.
  induction n as [|n IH]; cbn [connect_loop]; [apply keeps_ret|].
  apply keeps_bind; [apply keeps_connect|]. intros [c| |e].
  - apply keeps_ret.
  - apply keeps_bind; [now apply keeps_emit | intros; exact IH].
  - apply keeps_raise.
Qed.

Lemma keeps_fetch : keeps (_view_from_route_server env self).
Proof.
  unfold _view_from_route_server.
  apply keeps_bind; [now apply keeps_emit|]. intros _.
  apply keeps_bind; [apply keeps_connect_loop|]. intros [c|]; [|apply keeps_raise].
  apply keeps_bind.
  { apply keeps_bind; [now apply keeps_emit | intros; apply keeps_lift]. }
  intros raw. apply keeps_bind.
  { apply keeps_bind; [now apply keeps_emit | intros; apply keeps_lift]. }
  intros parsed. apply keeps_bind; [apply keeps_now|]. intros ts.
  apply keeps_bind; [apply keeps_lift|]. intros data. apply keeps_append_line.
Qed.

Lemma keeps_read_file : keeps _read_file.
Proof.
  apply keeps_bind; [apply keeps_readlines | intros; apply keeps_ret].
Qed.

Lemma keeps_view_from_file : keeps (_view_from_file env self).
Proof.
  unfold _view_from_file.
  apply keeps_bind; [apply keeps_path_exists|]. intros present.
  apply keeps_bind; [destruct present; [apply keeps_ret|apply keeps_fetch]|].
  intros _. apply keeps_bind; [apply keeps_read_file|]. intros [v|].
  - apply keeps_ret.
  - apply keeps_bind; [apply keeps_fetch | intros; apply keeps_read_file].
Qed.

(** X10.  Whatever [_get_view] does and however it ends, the log file
    only grows: its old lines stay first and in order, the new lines are as
    many as the appends of the trace, and an existing file still exists. *)
Theorem log_append_only (w w' : World) (r : result (option View)) :
  _get_view env self w = (r, w') -> appends_only w w'.
Proof.
  revert w r w'. change (keeps (_get_view env self)). unfold _get_view.
  apply keeps_bind; [apply keeps_view_from_file|]. intros latest_view.
  apply keeps_bind; [|intros; apply keeps_view_from_file].
  destruct latest_view as [v|]; [|apply keeps_fetch].
  destruct (refresh self); [apply keeps_fetch|].
  apply keeps_bind; [apply keeps_now|]. intros time_now.
  destruct (timestamp v <? time_now - eight_hours)%Z;
    [apply keeps_fetch|apply keeps_ret].
Qed.
End Keeps.

Lemma log_append_only_witness :
  appends_only (start (Some [sample_view 0]))
    (snd (_get_view garbled_env (sample_self true) (start (Some [sample_view 0])))).
Proof.
  apply (@log_append_only garbled_env (sample_self true)
           (start (Some [sample_view 0])) _
           (fst (_get_view garbled_env (sample_self true)
                   (start (Some [sample_view 0]))))).
  reflexivity.
Defined.

(** ** What [_get_view] returns *)

Section Provenance.
Variable env : Env.
Variable self : RouteView.

Lemma bind_ok_inv {A B} (m : M A) (k : A -> M B) w b w' :
  bind m k w = (Ok b, w') ->
  exists a w1, m w = (Ok a, w1) /\ k a w1 = (Ok b, w').
Proof.
  rewrite bind_eq. destruct (m w) as [[a|e] w1]; [eauto|discriminate].
Qed.

Lemma stored_snoc f v : stored (Some (lines_of f ++ [v])%list) = Some v.
Proof. apply latest_of_snoc. Qed.

(** X11.  Append then read: after a successful fetch the latest line
    of the log file is the snapshot just appended, [_read_file] and
    [_view_from_file] both return it, and the latter does not touch the
    file. *)
Theorem fetch_then_read_latest (w w1 : World) :
  _view_from_route_server env self w = (Ok tt, w1) ->
  exists v,
    log_file w1 = Some (lines_of (log_file w) ++ [v])%list
    /\ timestamp v = datetime_now env (clock_reads w)
    /\ fst (_read_file w1) = Ok (Some v)
    /\ fst (_view_from_file env self w1) = Ok (Some v)
    /\ log_file (snd (_view_from_file env self w1)) = log_file w1.
Proof.
  intros Hf. apply fetch_effect in Hf.
  destruct Hf as (t & _ & _ & _ & _ & _ & v & Hlog & Hts & _).
  exists v. split; [exact Hlog|]. split; [exact Hts|].
  rewrite (@read_file_some w1 _ Hlog), latest_of_snoc.
  rewrite (@view_from_file_stored env self w1 v)
    by (rewrite Hlog; apply stored_snoc).
  now splits.
Qed.

Lemma view_from_file_ok w o w' :
  _view_from_file env self w = (Ok o, w') ->
  exists v, o = Some v /\ stored (log_file w') = Some v.
Proof.
  destruct (stored (log_file w)) as [v|] eqn:Hs.
  - rewrite (view_from_file_stored env self _ Hs). intros [= <- <-]. now exists v.
  - intros Hr. apply view_from_file_bootstrap in Hr; [|exact Hs].
    destruct Hr as (t & _ & _ & _ & _ & v & -> & Hs' & _). now exists v.
Qed.

(** X12.  When [_get_view] returns, it returns a view (never [None]),
    and that view is the last line of the log file as the invocation leaves
    it. *)
Theorem get_view_returns_latest (w w' : World) (o : option View) :
  _get_view env self w = (Ok o, w') ->
  exists v, o = Some v /\ stored (log_file w') = Some v.
Proof.
  unfold _get_view. intros Hr.
  apply bind_ok_inv in Hr. destruct Hr as (lv & w1 & _ & Hr).
  apply bind_ok_inv in Hr. destruct Hr as ([] & w2 & _ & Hr).
  exact (view_from_file_ok _ Hr).
Qed.




(** X14.  With a stored view of at most 8 hours and no flag, the
    invocation returns that view after two reads of the log file and one
    reading of the clock: no login, no sleep, no append. *)
Theorem fresh_cache_is_reused (f : option (list View)) (v : View) :
  stored f = Some v -> refresh self = false ->
  datetime_now env 0 - timestamp v <= eight_hours ->
  _get_view env self (start f)
  = (Ok (Some v),
     {| log_file := f; connects := 0; clock_reads := 1;
        trace := [EvRead; EvRead] |}).
Proof.
  intros Hs Hno Hage. unfold _get_view. rewrite bind_eq.
  rewrite (@view_from_file_stored env self (start f) v) by exact Hs.
  rewrite Hno, bind_eq, bind_eq. unfold now at 1.
  cbn [log_file connects clock_reads trace start].
  destruct (Z.ltb_spec (timestamp v) (datetime_now env 0 - eight_hours)); [lia|].
  unfold ret at 1. rewrite (@view_from_file_stored env self _ v) by exact Hs.
  reflexivity.
Qed.

End Provenance.

(** ** Verdict and plain report *)


Lemma flagged_false_matches intent kv :
  flagged intent kv = false -> PyDict.get intent (fst kv) = Some (snd kv).
Proof.
  destruct kv as [prefix path]. unfold flagged, alert_step. cbn [fst snd].
  destruct (PyDict.get intent prefix) as [declared|]; [|discriminate].
  destruct (list_eqb declared path) eqn:E; [|discriminate].
  intros _. apply list_eqb_eq in E. now subst.
Qed.

Lemma existsb_false_Forall {A} (f : A -> bool) l :
  existsb f l = false -> Forall (fun x => f x = false) l.
Proof.
  induction l as [|x l IH]; simpl; [constructor|].
  intros H. apply orb_false_iff in H. destruct H. constructor; auto.
Qed.

(** X16.  The alert is either exactly [[OK] No alerts!] or begins with
    [[CRITICAL] ]; it is the former if and only if every entry of the view
    is declared in the intent with the same list. *)
Theorem alert_verdict (view : View) (intent : Dict string (list Z)) :
  (alert_view view intent = "[OK] No alerts!"
   \/ startswith "[CRITICAL] " (alert_view view intent) = true)
  /\ (alert_view view intent = "[OK] No alerts!" <->
      Forall (fun kv => PyDict.get intent (fst kv) = Some (snd kv))
             (PyDict.items (contents view))).
Proof.
  assert (Hcases :
    (existsb (flagged intent) (PyDict.items (contents view)) = true
     /\ startswith "[CRITICAL] " (alert_view view intent) = true)
    \/ (Forall (fun kv => PyDict.get intent (fst kv) = Some (snd kv))
               (PyDict.items (contents view)))).
  { destruct (existsb (flagged intent) (PyDict.items (contents view))) eqn:E.
    - left. split; [reflexivity|]. rewrite alert_view_eq, E. reflexivity.
    - right. apply existsb_false_Forall in E.
      eapply Forall_impl; [|exact E]. intros kv. apply flagged_false_matches. }
  split.
  - destruct Hcases as [[_ Hc]|Hall]; [now right|left; now apply alert_all_match].
  - split; [|apply alert_all_match].
    intros Hok. destruct Hcases as [[_ Hc]|Hall]; [|exact Hall].
    rewrite Hok in Hc. discriminate Hc.
Qed.



(** ** Slack and the snapshot against the intent *)



(** X19.  Without the token (unset or empty) a report that is not
    suppressed makes [view_to_slack] fail with the assertion of
    [post_to_channel], after the artifact was written and before anything
    is uploaded. *)
Theorem missing_token_leaves_artifact (desk : Desk) (channel content : string)
  (alerts_only : bool) (o : Outbox) :
  token_set desk = false ->
  str_in "CRITICAL" content = true \/ alerts_only = false ->
  view_to_slack desk channel content alerts_only o
  = (AssertionError "The 'SLACK_API_TOKEN' environment variable must be set",
     {| written := (written o ++ [(artifact desk, content)])%list;
        uploaded := uploaded o;
        printed := printed o |}).
Proof.
  intros Htok Hgo. unfold view_to_slack.
  assert (E : negb (str_in "CRITICAL" content) && alerts_only = false).
  { destruct Hgo as [-> | ->]; [reflexivity|apply andb_false_r]. }
  rewrite E. unfold post_to_channel, token_set, artifact in *.
  destruct (SLACK_API_TOKEN desk) as [[|c tok]|]; try discriminate; reflexivity.
Qed.

Lemma missing_token_leaves_artifact_witness :
  view_to_slack (sample_desk None) "#noc" "MY_SITE prefix found" false empty_outbox
  = (AssertionError "The 'SLACK_API_TOKEN' environment variable must be set",
     {| written := [("/tmp/2024-01-01T08:00:00_route_view.txt", "MY_SITE prefix found")];
        uploaded := []; printed := [] |}).
Proof.
  apply (@missing_token_leaves_artifact (sample_desk None) "#noc"
           "MY_SITE prefix found" false empty_outbox).
  - reflexivity.
  - right. reflexivity.
Defined.




(** X21.  An intent that declares for a prefix a list that is not in
    strictly ascending order never matches a fetched snapshot holding that
    prefix: the alert is critical whatever the route server showed. *)
Theorem unsorted_intent_never_matches (asn : string) (parsed : list Item)
  (data : Dict string (list Z)) (intent : Dict string (list Z))
  (prefix : string) (declared : list Z) (ts : Z) :
  normalize asn parsed = Ok data ->
  In prefix (PyDict.keys data) ->
  PyDict.get intent prefix = Some declared ->
  ~ StronglySorted Z.lt declared ->
  startswith "[CRITICAL] "
    (alert_view {| timestamp := ts; contents := data |} intent) = true.
Proof.
  intros Hn Hk Hg Hns.
  destruct (normalize_ok _ _ Hn) as (Hv & _ & _ & _ & Hnd).
  destruct (PyDict.get data prefix) as [path|] eqn:G;
    [|apply get_None_iff in G; contradiction].
  apply get_In in G. destruct (Hv _ _ G) as [Hs Hn'].
  assert (Hne : declared <> path).
  { intros ->. apply Hns. now apply sorted_nodup_strict. }
  assert (Hb : list_eqb declared path = false).
  { destruct (list_eqb declared path) eqn:E; [|reflexivity].
    apply list_eqb_eq in E. contradiction. }
  assert (Hf : flagged intent (prefix, path) = true)
    by (unfold flagged, alert_step; now rewrite Hg, Hb).
  rewrite alert_view_eq. cbn [contents].
  assert (E : existsb (flagged intent) (PyDict.items data) = true)
    by (apply existsb_exists; eauto).
  now rewrite E.
Qed.

Lemma unsorted_intent_never_matches_witness :
  startswith "[CRITICAL] "
    (alert_view {| timestamp := 0;
                   contents := [("1.2.3.0/24", [3257; 6939])] |}
                [("1.2.3.0/24", [6939; 3257])]) = true.
Proof.
  apply (@unsorted_intent_never_matches "65000"
           [ {| network := "1.2.3.0/24"; as_path := "6939 65000 i" |};
             {| network := "1.2.3.0/24"; as_path := "3257 65000 i" |} ]
           [("1.2.3.0/24", [3257; 6939])] [("1.2.3.0/24", [6939; 3257])]
           "1.2.3.0/24" [6939; 3257] 0).
  - reflexivity.
  - simpl. left. reflexivity.
  - reflexivity.
  - intros Hs. inversion Hs as [|? ? _ Hf]. inversion Hf as [|? ? Hlt _]. lia.
Defined.

(** X6.  No AS number of a snapshot is negative: [\w+] cannot match a
    sign, so [int] only sees digits and underscores. *)
Theorem snapshot_numbers_nonnegative (asn : string) (parsed : list Item)
  (data : Dict string (list Z)) (prefix : string) (path : list Z) (n : Z) :
  normalize asn parsed = Ok data ->
  In (prefix, path) (PyDict.items data) -> In n path -> 0 <= n.
Proof.
  intros Hn Hi Hin.
  destruct (normalize_ok _ _ Hn) as (_ & _ & _ & _ & Hnd).
  apply (In_get _ _ _ Hnd) in Hi.
  apply (@paths_of_normalize _ _ _ Hn _ _ Hi n) in Hin.
  destruct Hin as (item & _ & _ & Hp). unfold peer_of in Hp.
  destruct (re_search asn (as_path item)); [|discriminate].
  unfold py_int in Hp. eapply int_digits_nonneg; [|exact Hp]. lia.
Qed.

(** ** The properties above at sample inputs *)


Lemma snapshot_numbers_nonnegative_witness : 0 <= 1299.
Proof.
  apply (@snapshot_numbers_nonnegative "65000"
           [ {| network := "9.9.9.0/24"; as_path := "3257 1299 65000 i" |} ]
           [("9.9.9.0/24", [1299])] "9.9.9.0/24" [1299] 1299).
  - reflexivity.
  - simpl. left. reflexivity.
  - simpl. left. reflexivity.
Defined.


Lemma fetch_then_read_latest_witness :
  exists v,
    log_file (snd (_view_from_route_server sample_env (sample_self false)
                     (start (Some [sample_view 0]))))
    = Some ([sample_view 0] ++ [v])%list
    /\ timestamp v = 0
    /\ fst (_read_file (snd (_view_from_route_server sample_env (sample_self false)
                               (start (Some [sample_view 0]))))) = Ok (Some v)
    /\ fst (_view_from_file sample_env (sample_self false)
              (snd (_view_from_route_server sample_env (sample_self false)
                      (start (Some [sample_view 0]))))) = Ok (Some v)
    /\ log_file (snd (_view_from_file sample_env (sample_self false)
                        (snd (_view_from_route_server sample_env (sample_self false)
                                (start (Some [sample_view 0]))))))
       = log_file (snd (_view_from_route_server sample_env (sample_self false)
                          (start (Some [sample_view 0])))).
Proof.
  apply (@fetch_then_read_latest sample_env (sample_self false)
           (start (Some [sample_view 0]))).
  reflexivity.
Defined.

Lemma get_view_returns_latest_witness :
  exists v,
    fst_ok (_get_view sample_env (sample_self true) (start None)) = Some v
    /\ stored (log_file (snd (_get_view sample_env (sample_self true) (start None))))
       = Some v.
Proof.
  unfold fst_ok.
  destruct (@get_view_returns_latest sample_env (sample_self true) (start None)
              (snd (_get_view sample_env (sample_self true) (start None)))
              (Some {| timestamp := 1;
                       contents := [("1.2.3.0/24", [3257; 6939]); ("5.5.5.0/24", []);
                                    ("9.9.9.0/24", [1299])] |}) eq_refl)
    as (v & E & Hs).
  exists v. split; [exact E|exact Hs].
Defined.


Lemma fresh_cache_is_reused_witness :
  _get_view eight_oclock_env (sample_self false) (start (Some [sample_view 0]))
  = (Ok (Some (sample_view 0)),
     {| log_file := Some [sample_view 0]; connects := 0; clock_reads := 1;
        trace := [EvRead; EvRead] |}).
Proof.
  apply (@fresh_cache_is_reused eight_oclock_env (sample_self false)
           (Some [sample_view 0]) (sample_view 0)).
  - reflexivity.
  - reflexivity.
  - vm_compute. discriminate.
Defined.


Lemma alert_verdict_witness :
  Forall (fun kv : string * list Z =>
            PyDict.get [("1.2.3.0/24", [3257]); ("7.7.7.0/24", [6939])] (fst kv)
            = Some (snd kv))
         (PyDict.items (contents (sample_view 0))).
Proof.
  apply (proj1 (proj2 (alert_verdict (sample_view 0)
                         [("1.2.3.0/24", [3257]); ("7.7.7.0/24", [6939])]))).
  reflexivity.
Defined.
